(** * Order lifecycle and inventory reconciliation of the store backend

    A shallow embedding of the Express handlers of
    [backend/src/routes/orders-new.ts] (order placement, status and
    payment-status update, cancellation), [backend/src/routes/cart.ts]
    (cart add, update, remove and clear),
    [backend/src/routes/products-new.ts] (admin product update) and
    [backend/src/middleware/auth.ts] (bearer-token resolution).

    The database is an explicit [Store] threaded through every handler.
    Each table is a finite map keyed by its primary key, so [.eq('id', k)
    .single()] is a map lookup: it yields the row, or the "no rows" error
    that supabase reports through the [error] field.  Identifiers produced
    by [uuid_generate_v4()] are taken fresh with respect to the table's
    keys.  Prices and money totals are JavaScript numbers, that is
    IEEE 754 binary64 values ([float]), multiplied and added as the
    handlers do it; stock and quantities are integers.  The rows carry the
    columns that complete-schema.sql gives their tables, and an UPDATE
    naming a column the table lacks is answered with an error.
    Connectivity failures of the database are not part of the model, nor
    is the rescaling of a number when it is stored in a NUMERIC column;
    the UNIQUE (user_id, product_id) constraint of [cart_items] is. *)

From Stdlib Require Import Ascii String ZArith Floats.
From stdpp Require Import base relations gmap strings list fin_maps infinite pretty sorting.

Local Open Scope Z_scope.

(** ** Rows of the tables (columns the handlers read or write) *)

Record Product := mkProduct {
  prod_title : string;
  prod_image_url : string;
  prod_price : float;
  prod_stock : Z;
  prod_approved_by_ai : bool
}.

Record UserRow := mkUserRow {
  usr_email : string;
  usr_role : option string
}.

Record CartItem := mkCartItem {
  ci_user_id : string;
  ci_product_id : string;
  ci_quantity : Z
}.

Record OrderItem := mkOrderItem {
  oi_product_id : string;
  oi_product_title : string;
  oi_product_image : string;
  oi_price : float;
  oi_quantity : Z;
  oi_total : float
}.

Record Order := mkOrder {
  o_user_id : string;
  o_items : list OrderItem;
  o_shipping_info : gmap string string;
  o_total_price : float;
  o_payment_method : string;
  o_status : string;
  o_payment_status : string;
  o_estimated_delivery : Z;
  o_tracking_number : option string
}.

(** What the identity provider knows about a bearer token. *)
Record Identity := mkIdentity {
  idn_id : string;
  idn_email : string
}.

(** [req.user], as attached by the authentication middleware. *)
Record ReqUser := mkReqUser {
  u_id : string;
  u_email : string;
  u_role : string
}.

Record Store := mkStore {
  auth_sessions : gmap string Identity;
  users : gmap string UserRow;
  products : gmap string Product;
  orders : gmap string Order;
  cart_items : gmap string CartItem
}.

(** ** Responses *)

Inductive Response (A : Type) : Type :=
| Ok (status : Z) (body : A)
| Err (status : Z) (error : string).

Arguments Ok {A} status body.
Arguments Err {A} status error.

(** ** Column updates *)

Definition with_stock (s : Z) (p : Product) : Product :=
  mkProduct (prod_title p) (prod_image_url p) (prod_price p) s
            (prod_approved_by_ai p).

Definition with_quantity (q : Z) (c : CartItem) : CartItem :=
  mkCartItem (ci_user_id c) (ci_product_id c) q.

Definition with_status (s : string) (tracking : option string) (o : Order) : Order :=
  mkOrder (o_user_id o) (o_items o) (o_shipping_info o) (o_total_price o)
          (o_payment_method o) s (o_payment_status o) (o_estimated_delivery o)
          (match tracking with Some t => Some t | None => o_tracking_number o end).

Definition with_payment_status (s : string) (o : Order) : Order :=
  mkOrder (o_user_id o) (o_items o) (o_shipping_info o) (o_total_price o)
          (o_payment_method o) (o_status o) s (o_estimated_delivery o)
          (o_tracking_number o).

Definition set_products (ps : gmap string Product) (st : Store) : Store :=
  mkStore (auth_sessions st) (users st) ps (orders st) (cart_items st).

Definition set_orders (os : gmap string Order) (st : Store) : Store :=
  mkStore (auth_sessions st) (users st) (products st) os (cart_items st).

Definition set_cart_items (cs : gmap string CartItem) (st : Store) : Store :=
  mkStore (auth_sessions st) (users st) (products st) (orders st) cs.

(** ** JavaScript numbers *)

(** An integer of a JSON body or of an INTEGER column as the number the
    handler computes with: the nearest binary64 value. *)
Definition number_of_Z (z : Z) : float :=
  SF2Prim (binary_normalize prec emax z 0 false).

(** ** JavaScript truthiness of the request fields *)

Definition truthy (s : option string) : bool :=
  match s with
  | Some v => negb (String.eqb v "")
  | None => false
  end.

(** [.single()] over a filtered table: the row when exactly one matches. *)
Definition single {A} (rows : list (string * A)) : option (string * A) :=
  match rows with
  | [r] => Some r
  | _ => None
  end.

(** ** Authentication middleware (middleware/auth.ts) *)

Fixpoint split_space (cur s : string) : list string :=
  match s with
  | EmptyString => [cur]
  | String c rest =>
      if Ascii.eqb c " "%char
      then cur :: split_space "" rest
      else split_space (cur +:+ String c "") rest
  end.

(** [authHeader && authHeader.split(' ')[1]], kept only when truthy. *)
Definition bearer_token (authHeader : option string) : option string :=
  match authHeader with
  | None => None
  | Some h =>
      match split_space "" h !! 1%nat with
      | Some t => if String.eqb t "" then None else Some t
      | None => None
      end
  end.

Definition role_or_default (userData : option UserRow) : string :=
  match userData with
  | Some row => if truthy (usr_role row) then default "user" (usr_role row) else "user"
  | None => "user"
  end.

Definition authenticateToken (st : Store) (authHeader : option string)
  : Response ReqUser :=
  match bearer_token authHeader with
  | None => Err 401 "Access token required"
  | Some token =>
      match auth_sessions st !! token with
      | None => Err 403 "Invalid token"
      | Some user =>
          match users st !! idn_id user with
          | None => Err 500 "Failed to fetch user data"
          | Some row =>
              Ok 200 (mkReqUser (idn_id user) (idn_email user)
                                (role_or_default (Some row)))
          end
      end
  end.

(** [optionalAuth] always calls [next()]; the result is [req.user]. *)
Definition optionalAuth (st : Store) (authHeader : option string)
  : option ReqUser :=
  match bearer_token authHeader with
  | None => None
  | Some token =>
      match auth_sessions st !! token with
      | None => None
      | Some user =>
          Some (mkReqUser (idn_id user) (idn_email user)
                          (role_or_default (users st !! idn_id user)))
      end
  end.

Definition requireAdmin (user : option ReqUser) : bool :=
  match user with
  | Some u => String.eqb (u_role u) "admin"
  | None => false
  end.

(** ** Cart routes (routes/cart.ts) *)

Record CartAddBody := mkCartAddBody {
  cab_product_id : option string;
  cab_quantity : option Z
}.

(** The rows of [cart_items] with the given [user_id] and [product_id]. *)
Definition cart_lines_of (uid pid : string) (cs : gmap string CartItem)
  : list (string * CartItem) :=
  map_to_list
    (filter (λ kv : string * CartItem,
               ci_user_id kv.2 = uid ∧ ci_product_id kv.2 = pid) cs).

(** POST /api/cart *)
Definition cart_add (st : Store) (user : ReqUser) (body : CartAddBody)
  : Response (string * CartItem) * Store :=
  let quantity := default 1 (cab_quantity body) in
  if negb (truthy (cab_product_id body))
  then (Err 400 "Product ID is required", st)
  else
    let product_id := default "" (cab_product_id body) in
    if quantity <=? 0
    then (Err 400 "Quantity must be greater than 0", st)
    else
      match products st !! product_id with
      | None => (Err 404 "Product not found", st)
      | Some product =>
          if negb (prod_approved_by_ai product)
          then (Err 404 "Product not found", st)
          else if prod_stock product <? quantity
          then (Err 400 "Insufficient stock", st)
          else
            match single (cart_lines_of (u_id user) product_id (cart_items st)) with
            | Some (id, existingItem) =>
                let newQuantity := ci_quantity existingItem + quantity in
                if prod_stock product <? newQuantity
                then (Err 400 "Not enough stock available", st)
                else
                  let data := with_quantity newQuantity existingItem in
                  (Ok 200 (id, data),
                   set_cart_items (<[id := data]> (cart_items st)) st)
            | None =>
                match cart_lines_of (u_id user) product_id (cart_items st) with
                | [] =>
                    let id := fresh (dom (cart_items st)) in
                    let data := mkCartItem (u_id user) product_id quantity in
                    (Ok 201 (id, data),
                     set_cart_items (<[id := data]> (cart_items st)) st)
                | _ =>
                    (Err 500 "duplicate key value violates unique constraint", st)
                end
            end
      end.

(** DELETE /api/cart/:id *)
Definition cart_remove (st : Store) (user : ReqUser) (id : string)
  : Response string * Store :=
  (Ok 200 "Item removed from cart successfully",
   set_cart_items
     (filter (λ kv : string * CartItem,
                ¬ (kv.1 = id ∧ ci_user_id kv.2 = u_id user)) (cart_items st))
     st).

(** PUT /api/cart/:id.  The joined [products (stock)] of a line whose
    product is gone is [null], and reading its stock lands in the
    handler's catch clause. *)
Definition cart_update (st : Store) (user : ReqUser) (id : string)
    (quantity : option Z)
  : Response (string * CartItem) * Store :=
  match quantity with
  | None => (Err 400 "Valid quantity is required", st)
  | Some quantity =>
      if quantity <=? 0
      then (Err 400 "Valid quantity is required", st)
      else
        match cart_items st !! id with
        | None => (Err 404 "Cart item not found", st)
        | Some cartItem =>
            if negb (String.eqb (ci_user_id cartItem) (u_id user))
            then (Err 404 "Cart item not found", st)
            else
              match products st !! ci_product_id cartItem with
              | None => (Err 500 "Internal server error", st)
              | Some product =>
                  if prod_stock product <? quantity
                  then (Err 400 "Not enough stock available", st)
                  else
                    let data := with_quantity quantity cartItem in
                    (Ok 200 (id, data),
                     set_cart_items (<[id := data]> (cart_items st)) st)
              end
        end
  end.

(** The DELETE issued with [.eq('user_id', uid)] only. *)
Definition clear_cart (uid : string) (cs : gmap string CartItem)
  : gmap string CartItem :=
  filter (λ kv : string * CartItem, ci_user_id kv.2 ≠ uid) cs.

(** DELETE /api/cart *)
Definition cart_clear (st : Store) (user : ReqUser) : Response string * Store :=
  (Ok 200 "Cart cleared successfully",
   set_cart_items (clear_cart (u_id user) (cart_items st)) st).

(** ** Order routes (routes/orders-new.ts) *)

Record Item := mkItem {
  it_product_id : string;
  it_quantity : Z
}.

Record PlaceBody := mkPlaceBody {
  pb_items : option (list Item);
  pb_shipping_info : option (gmap string string);
  pb_payment_method : option string
}.

(** The first loop of POST /api/orders: every line is checked against the
    product table and priced; the first offending line ends the request. *)
Fixpoint build_order_items (ps : gmap string Product) (its : list Item)
    (total_price : float) (orderItems : list OrderItem)
  : string + (float * list OrderItem) :=
  match its with
  | [] => inr (total_price, orderItems)
  | item :: rest =>
      match ps !! it_product_id item with
      | None => inl ("Product " +:+ it_product_id item +:+ " not found")
      | Some product =>
          if prod_stock product <? it_quantity item
          then inl ("Insufficient stock for " +:+ prod_title product
                    +:+ ". Available: " +:+ pretty (prod_stock product))
          else
            let itemTotal :=
              (prod_price product * number_of_Z (it_quantity item))%float in
            build_order_items ps rest (total_price + itemTotal)%float
              (orderItems ++
               [mkOrderItem (it_product_id item) (prod_title product)
                            (prod_image_url product) (prod_price product)
                            (it_quantity item) itemTotal])
      end
  end.

(** One round of the second loop: read the current stock, write it back
    lowered by the line's quantity; a product that is gone is skipped. *)
Definition decrement_stock (ps : gmap string Product) (item : Item)
  : gmap string Product :=
  match ps !! it_product_id item with
  | Some currentProduct =>
      <[it_product_id item :=
          with_stock (prod_stock currentProduct - it_quantity item) currentProduct]> ps
  | None => ps
  end.

Definition seven_days : Z := 7 * 24 * 60 * 60 * 1000.

(** POST /api/orders; [now] is [Date.now()]. *)
Definition place (now : Z) (st : Store) (user : ReqUser) (body : PlaceBody)
  : Response (string * Order) * Store :=
  match pb_items body with
  | None | Some [] => (Err 400 "Items are required", st)
  | Some items =>
      match pb_shipping_info body with
      | None => (Err 400 "Shipping information is required", st)
      | Some shipping_info =>
          if negb (truthy (shipping_info !! "address"))
             || negb (truthy (shipping_info !! "city"))
          then (Err 400 "Shipping information is required", st)
          else
            match build_order_items (products st) items 0%float [] with
            | inl msg => (Err 400 msg, st)
            | inr (total_price, orderItems) =>
                let id := fresh (dom (orders st)) in
                let order :=
                  mkOrder (u_id user) orderItems shipping_info total_price
                          (default "card" (pb_payment_method body))
                          "pending" "pending" (now + seven_days) None in
                let st1 := set_orders (<[id := order]> (orders st)) st in
                let st2 :=
                  set_products (foldl decrement_stock (products st1) items) st1 in
                let st3 :=
                  set_cart_items (clear_cart (u_id user) (cart_items st2)) st2 in
                (Ok 201 (id, order), st3)
            end
      end
  end.

Definition validStatuses : list string :=
  ["pending"; "processing"; "shipped"; "delivered"; "cancelled"].

Definition includes (l : list string) (s : option string) : bool :=
  match s with
  | Some v => bool_decide (v ∈ l)
  | None => false
  end.

Definition no_rows : string :=
  "JSON object requested, multiple (or no) rows returned".

(** PATCH /api/orders/:id/status, behind [authenticateToken, requireAdmin]. *)
Definition update_status (st : Store) (user : ReqUser) (id : string)
    (status tracking_number : option string)
  : Response (string * Order) * Store :=
  if negb (requireAdmin (Some user))
  then (Err 403 "Admin access required", st)
  else if negb (includes validStatuses status)
  then (Err 400 "Invalid status", st)
  else
    match orders st !! id with
    | None => (Err 500 no_rows, st)
    | Some row =>
        let data :=
          with_status (default "" status)
            (if truthy tracking_number then tracking_number else None) row in
        (Ok 200 (id, data), set_orders (<[id := data]> (orders st)) st)
    end.

Definition validPaymentStatuses : list string :=
  ["pending"; "paid"; "failed"; "refunded"].

(** PATCH /api/orders/:id/payment-status, behind the same two middlewares. *)
Definition update_payment_status (st : Store) (user : ReqUser) (id : string)
    (payment_status : option string)
  : Response (string * Order) * Store :=
  if negb (requireAdmin (Some user))
  then (Err 403 "Admin access required", st)
  else if negb (includes validPaymentStatuses payment_status)
  then (Err 400 "Invalid payment status", st)
  else
    match orders st !! id with
    | None => (Err 500 no_rows, st)
    | Some row =>
        let data := with_payment_status (default "" payment_status) row in
        (Ok 200 (id, data), set_orders (<[id := data]> (orders st)) st)
    end.

(** One round of the restore loop of the cancellation handler. *)
Definition restore_stock (ps : gmap string Product) (item : OrderItem)
  : gmap string Product :=
  match ps !! oi_product_id item with
  | Some currentProduct =>
      <[oi_product_id item :=
          with_stock (prod_stock currentProduct + oi_quantity item) currentProduct]> ps
  | None => ps
  end.

Definition default_reason : string := "User requested cancellation".

Definition reason_or_default (reason : option string) : string :=
  if truthy reason then default "" reason else default_reason.

(** The columns of [orders] in complete-schema.sql. *)
Definition orders_columns : list string :=
  ["id"; "user_id"; "items"; "shipping_info"; "total_price"; "status";
   "payment_method"; "payment_status"; "tracking_number";
   "estimated_delivery"; "created_at"; "updated_at"].

(** The first column named by an UPDATE that the table does not have. *)
Definition unknown_column (columns : list string)
    (updates : list (string * string)) : option string :=
  head (filter (λ column, column ∉ columns) (fst <$> updates)).

Definition column_error (column : string) : string :=
  "Could not find the '" +:+ column +:+ "' column of 'orders' in the schema cache".

(** POST /api/orders/:id/cancel.  The UPDATE names [status] and
    [cancellation_reason]; when the table refuses it the handler answers
    500 with the error's message and goes no further. *)
Definition cancel (st : Store) (user : ReqUser) (id : string)
    (reason : option string)
  : Response (string * Order) * Store :=
  match orders st !! id with
  | None => (Err 404 "Order not found", st)
  | Some order =>
      if negb (String.eqb (u_role user) "admin")
         && negb (String.eqb (o_user_id order) (u_id user))
      then (Err 403 "Unauthorized", st)
      else if String.eqb (o_status order) "shipped"
              || String.eqb (o_status order) "delivered"
      then (Err 400 "Cannot cancel shipped or delivered orders", st)
      else
        let updates :=
          [("status", "cancelled");
           ("cancellation_reason", reason_or_default reason)] in
        match unknown_column orders_columns updates with
        | Some column => (Err 500 (column_error column), st)
        | None =>
            let data := with_status "cancelled" None order in
            let st1 := set_orders (<[id := data]> (orders st)) st in
            let st2 :=
              set_products (foldl restore_stock (products st1) (o_items order)) st1 in
            (Ok 200 (id, data), st2)
        end
  end.

(** ** Admin product update (routes/products-new.ts, PUT /api/products/:id)

    The body may set any column; the columns kept in [Product] are the
    ones the order and cart handlers read. *)

Record ProductUpdates := mkProductUpdates {
  upd_title : option string;
  upd_image_url : option string;
  upd_price : option float;
  upd_stock : option Z;
  upd_approved_by_ai : option bool
}.

Definition apply_updates (updates : ProductUpdates) (p : Product) : Product :=
  mkProduct (default (prod_title p) (upd_title updates))
            (default (prod_image_url p) (upd_image_url updates))
            (default (prod_price p) (upd_price updates))
            (default (prod_stock p) (upd_stock updates))
            (default (prod_approved_by_ai p) (upd_approved_by_ai updates)).

Definition update_product (st : Store) (user : ReqUser) (id : string)
    (updates : ProductUpdates)
  : Response (string * Product) * Store :=
  if negb (requireAdmin (Some user))
  then (Err 403 "Admin access required", st)
  else
    match products st !! id with
    | None => (Err 500 no_rows, st)
    | Some row =>
        let data := apply_updates updates row in
        (Ok 200 (id, data), set_products (<[id := data]> (products st)) st)
    end.

(** ** Runs of the backend *)

(** One request to a writing route of the order and cart routers, or an
    admin product update. *)
Inductive step : Store → Store → Prop :=
| step_place now st user body :
    step st (place now st user body).2
| step_cancel st user id reason :
    step st (cancel st user id reason).2
| step_update_status st user id status tracking_number :
    step st (update_status st user id status tracking_number).2
| step_update_payment_status st user id payment_status :
    step st (update_payment_status st user id payment_status).2
| step_update_product st user id updates :
    step st (update_product st user id updates).2
| step_cart_add st user body :
    step st (cart_add st user body).2
| step_cart_update st user id quantity :
    step st (cart_update st user id quantity).2
| step_cart_remove st user id :
    step st (cart_remove st user id).2
| step_cart_clear st user :
    step st (cart_clear st user).2.

(** ** What the handlers of POST /api/orders reject *)

(** A line the first loop stops at: no such product, or not enough stock. *)
Definition line_rejected (ps : gmap string Product) (item : Item) : bool :=
  match ps !! it_product_id item with
  | None => true
  | Some product => prod_stock product <? it_quantity item
  end.

(** The two guards at the top of the handler. *)
Definition input_invalid (body : PlaceBody) : bool :=
  match pb_items body with
  | None | Some [] => true
  | Some _ =>
      match pb_shipping_info body with
      | None => true
      | Some shipping_info =>
          negb (truthy (shipping_info !! "address"))
          || negb (truthy (shipping_info !! "city"))
      end
  end.

Definition fails_validation (st : Store) (body : PlaceBody) : bool :=
  input_invalid body
  || existsb (line_rejected (products st)) (default [] (pb_items body)).

(** ** A small shop used by the examples *)

Module Sample.

Definition alice : ReqUser := mkReqUser "u1" "alice@example.com" "user".
Definition bob : ReqUser := mkReqUser "u2" "bob@example.com" "user".
Definition root : ReqUser := mkReqUser "u0" "root@example.com" "admin".

(** A price given in cents, as the number read from its DECIMAL column. *)
Definition dollars (cents : Z) : float := (number_of_Z cents / 100)%float.

Definition widget : Product := mkProduct "Widget" "widget.png" (dollars 7999) 3 true.
Definition gadget : Product := mkProduct "Gadget" "gadget.png" (dollars 1250) 10 true.
Definition draft : Product := mkProduct "Draft" "draft.png" (dollars 700) 5 false.

Definition catalog : gmap string Product :=
  <["p1" := widget]> (<["p2" := gadget]> (<["p3" := draft]> ∅)).

Definition people : gmap string UserRow :=
  <["u0" := mkUserRow "root@example.com" (Some "admin")]>
    (<["u1" := mkUserRow "alice@example.com" (Some "user")]> ∅).

Definition sessions : gmap string Identity :=
  <["tok-alice" := mkIdentity "u1" "alice@example.com"]>
    (<["tok-bob" := mkIdentity "u2" "bob@example.com"]> ∅).

Definition basket : gmap string CartItem :=
  <["c1" := mkCartItem "u1" "p2" 4]> (<["c2" := mkCartItem "u2" "p1" 1]> ∅).

Definition shop : Store := mkStore sessions people catalog ∅ basket.

(** Only the two fields the handler looks at. *)
Definition short_address : gmap string string :=
  <["address" := "1 Main St"]> (<["city" := "Springfield"]> ∅).

Definition order_two_widgets : PlaceBody :=
  mkPlaceBody (Some [mkItem "p1" 2]) (Some short_address) None.


Definition order_five_widgets : PlaceBody :=
  mkPlaceBody (Some [mkItem "p2" 1; mkItem "p1" 5]) (Some short_address) None.

Definition order_draft : PlaceBody :=
  mkPlaceBody (Some [mkItem "p3" 1]) (Some short_address) (Some "cash").

(** Alice orders two widgets (stock 3 → 1); the order gets id ["0"]. *)
Definition after_place : Store := (place 0 shop alice order_two_widgets).2.

(** ... which the admin then marks [cancelled] through the status route. *)
Definition after_admin_cancel : Store :=
  (update_status after_place root "0" (Some "cancelled") None).2.

(** ... or the admin moves it to [delivered] instead. *)
Definition after_delivery : Store :=
  (update_status after_place root "0" (Some "delivered") (Some "TRACK-1")).2.

End Sample.

(** ** The pricing loop *)

(** [total_price += itemTotal], line after line, from [0]. *)
Definition sum_totals (lines : list OrderItem) : float :=
  foldl (λ total_price line, (total_price + oi_total line)%float) 0%float lines.

(** The snapshot the first loop takes of one accepted line. *)
Definition priced (ps : gmap string Product) (item : Item) (line : OrderItem)
  : Prop :=
  ∃ product,
    ps !! it_product_id item = Some product
    ∧ it_quantity item ≤ prod_stock product
    ∧ line = mkOrderItem (it_product_id item) (prod_title product)
                         (prod_image_url product) (prod_price product)
                         (it_quantity item)
                         (prod_price product * number_of_Z (it_quantity item))%float.

(** ** Order placement *)

(** The order row and the store that a request leaves behind once both
    guards and the pricing loop have let it through. *)
Definition placed_order (now : Z) (user : ReqUser) (body : PlaceBody)
    (lines : list OrderItem) : Order :=
  mkOrder (u_id user) lines (default ∅ (pb_shipping_info body))
          (sum_totals lines) (default "card" (pb_payment_method body))
          "pending" "pending" (now + seven_days) None.

(** The line and the order of [Sample.order_two_widgets]. *)
Definition widget_lines : list OrderItem :=
  [mkOrderItem "p1" "Widget" "widget.png" (Sample.dollars 7999) 2
               (Sample.dollars 7999 * number_of_Z 2)%float].

Definition widget_order : Order :=
  placed_order 0 Sample.alice Sample.order_two_widgets widget_lines.

Definition placed_store (now : Z) (st : Store) (user : ReqUser)
    (body : PlaceBody) (lines : list OrderItem) : Store :=
  mkStore (auth_sessions st) (users st)
          (foldl decrement_stock (products st) (default [] (pb_items body)))
          (<[fresh (dom (orders st)) := placed_order now user body lines]> (orders st))
          (clear_cart (u_id user) (cart_items st)).



(** A line the first loop lets through; the approval flag plays no part. *)
Definition in_stock (ps : gmap string Product) (item : Item) : Prop :=
  ∃ product,
    ps !! it_product_id item = Some product
    ∧ it_quantity item ≤ prod_stock product.

(** ** Input validation of POST /api/orders *)

(** The two messages of the guards at the top of the handler. *)
Definition validation_message (msg : string) : Prop :=
  msg = "Items are required" ∨ msg = "Shipping information is required".

(** The required fields as the specification lists them: full name,
    address line 1, city, state, postal code and phone, under the names
    the handler and the checkout form give them. *)
Definition required_shipping_fields : list string :=
  ["full_name"; "address"; "city"; "state"; "postal_code"; "phone"].

Definition missing_required_field (body : PlaceBody) : bool :=
  match pb_shipping_info body with
  | None => true
  | Some shipping_info =>
      existsb (λ field, negb (truthy (shipping_info !! field)))
              required_shipping_fields
  end.

(** What the specification's first step turns away. *)
Definition must_be_rejected (body : PlaceBody) : bool :=
  match pb_items body with
  | None | Some [] => true
  | Some _ => missing_required_field body
  end.

(** ** Cancellation and stock restore *)

(** What the lines of an order snapshot give back to one product. *)
Definition restored_quantity (pid : string) (lines : list OrderItem) : Z :=
  foldr (λ line acc,
           if decide (oi_product_id line = pid) then oi_quantity line + acc else acc)
        0 lines.

Definition add_stock (n : Z) (p : Product) : Product :=
  with_stock (prod_stock p + n) p.

Definition may_cancel (user : ReqUser) (order : Order) : Prop :=
  u_role user = "admin" ∨ o_user_id order = u_id user.

(** ** Admin status update *)

(** The order of the forward chain pending → processing → shipped →
    delivered of the specification; [cancelled] lies outside it. *)
Definition status_rank (s : string) : option nat :=
  if String.eqb s "pending" then Some 0%nat
  else if String.eqb s "processing" then Some 1%nat
  else if String.eqb s "shipped" then Some 2%nat
  else if String.eqb s "delivered" then Some 3%nat
  else None.

Definition moves_backwards (from to : string) : bool :=
  match status_rank from, status_rank to with
  | Some a, Some b => (b <? a)%nat
  | _, _ => false
  end.

(** No transition of the specification's state machine leaves these. *)
Definition terminal (s : string) : bool :=
  String.eqb s "delivered" || String.eqb s "cancelled".

Definition leaves_terminal (from to : string) : bool :=
  terminal from && negb (String.eqb from to).

(** ** Cart lines *)

(** The UNIQUE (user_id, product_id) constraint of [cart_items]. *)
Definition cart_key (kv : string * CartItem) : string * string :=
  (ci_user_id kv.2, ci_product_id kv.2).

Definition cart_unique (cs : gmap string CartItem) : Prop :=
  NoDup (cart_key <$> map_to_list cs).

(** Quantities of cart lines are at least one: a line is inserted or
    rewritten with a positive quantity only. *)
Definition cart_positive (cs : gmap string CartItem) : Prop :=
  map_Forall (λ _ line, 1 ≤ ci_quantity line) cs.

Definition cart_wf (cs : gmap string CartItem) : Prop :=
  cart_unique cs ∧ cart_positive cs.

(** The two 400 answers of POST /api/cart about stock. *)
Definition insufficient_stock_message (msg : string) : Prop :=
  msg = "Insufficient stock" ∨ msg = "Not enough stock available".

Definition removable (uid id : string) (kv : string * CartItem) : Prop :=
  kv.1 = id ∧ ci_user_id kv.2 = uid.

(** What a request that writes one cart line leaves behind: the line is
    read back under its id, every other cart line reads as before, and
    the other tables are the same. *)
Definition line_written (st st' : Store) (id : string) (line : CartItem) : Prop :=
  cart_items st' !! id = Some line
  ∧ (∀ other, other ≠ id → cart_items st' !! other = cart_items st !! other)
  ∧ products st' = products st
  ∧ orders st' = orders st
  ∧ users st' = users st
  ∧ auth_sessions st' = auth_sessions st.

(** * The remaining routes and what the statements below need *)

(** ** Routes behind the authentication middleware *)

(** [router.verb(path, authenticateToken, handler)]: the handler runs with
    the [req.user] the middleware attached, or the middleware's own
    answer ends the request. *)
Definition with_auth {A} (st : Store) (authHeader : option string)
    (handler : ReqUser → Response A * Store) : Response A * Store :=
  match authenticateToken st authHeader with
  | Ok _ user => handler user
  | Err status error => (Err status error, st)
  end.

(** PATCH /api/orders/:id/status as mounted: [authenticateToken],
    [requireAdmin], handler. *)
Definition route_update_status (st : Store) (authHeader : option string)
    (id : string) (status tracking_number : option string)
  : Response (string * Order) * Store :=
  with_auth st authHeader (λ user, update_status st user id status tracking_number).

(** ** Reading one order (GET /api/orders/:id) *)

Definition get_order (st : Store) (user : ReqUser) (id : string)
  : Response (string * Order) :=
  match orders st !! id with
  | Some data =>
      if String.eqb (o_user_id data) (u_id user)
      then Ok 200 (id, data)
      else Err 404 "Order not found"
  | None => Err 404 "Order not found"
  end.

(** ** Order tracking (GET /api/orders/track/:tracking_number) *)

Record Milestone := mkMilestone {
  ms_status : string;
  ms_date : Z;
  ms_description : string
}.

Definition one_day : Z := 24 * 60 * 60 * 1000.

(** The history synthesised from the current status; [createdAt] is
    [new Date(data.created_at).getTime()]. *)
Definition tracking_history (createdAt : Z) (status : string) : list Milestone :=
  [mkMilestone "Order Placed" createdAt "Your order has been placed successfully"]
  ++ (if String.eqb status "processing" || String.eqb status "shipped"
         || String.eqb status "delivered"
      then [mkMilestone "Processing" (createdAt + one_day)
                        "Your order is being processed"]
      else [])
  ++ (if String.eqb status "shipped" || String.eqb status "delivered"
      then [mkMilestone "Shipped" (createdAt + 2 * one_day)
                        "Your order has been shipped"]
      else [])
  ++ (if String.eqb status "delivered"
      then [mkMilestone "Delivered" (createdAt + 7 * one_day)
                        "Your order has been delivered"]
      else []).

Record Tracking := mkTracking {
  tr_order_id : string;
  tr_tracking_number : option string;
  tr_current_status : string;
  tr_estimated_delivery : Z;
  tr_tracking_history : list Milestone
}.

(** The rows of [orders] with the given tracking number. *)
Definition orders_tracked (tracking_number : string) (os : gmap string Order)
  : list (string * Order) :=
  map_to_list
    (filter (λ kv : string * Order, o_tracking_number kv.2 = Some tracking_number) os).

(** The handler; [created_at] gives the [created_at] column of an order,
    which [Order] does not carry. *)
Definition track (created_at : string → Z) (st : Store) (tracking_number : string)
  : Response Tracking :=
  match single (orders_tracked tracking_number (orders st)) with
  | None => Err 404 "Order not found"
  | Some (id, data) =>
      Ok 200 (mkTracking id (o_tracking_number data) (o_status data)
                         (o_estimated_delivery data)
                         (tracking_history (created_at id) (o_status data)))
  end.

(** ** Cart listing (GET /api/cart): the totals computed over the rows
    the query returned, each joined with its product *)












(** ** Quantities and stock *)

(** What the lines of a request take from one product. *)
Definition ordered_quantity (pid : string) (items : list Item) : Z :=
  foldr (λ item acc,
           if decide (it_product_id item = pid) then it_quantity item + acc else acc)
        0 items.

Definition stock_nonneg (ps : gmap string Product) : Prop :=
  map_Forall (λ _ product, 0 ≤ prod_stock product) ps.

(** The CHECK constraints of the two status columns. *)
Definition statuses_valid (os : gmap string Order) : Prop :=
  map_Forall (λ _ order,
                o_status order ∈ validStatuses
                ∧ o_payment_status order ∈ validPaymentStatuses) os.

Fixpoint has_space (s : string) : bool :=
  match s with
  | EmptyString => false
  | String c rest => Ascii.eqb c " "%char || has_space rest
  end.

(** The sample shop with a session for its admin. *)
Definition shop_with_root : Store :=
  mkStore (<["tok-root" := mkIdentity "u0" "root@example.com"]> Sample.sessions)
          Sample.people Sample.catalog ∅ Sample.basket.


(** A request naming one product on two lines. *)
Definition twice (pid : string) (quantity : Z) (shipping_info : gmap string string)
  : PlaceBody :=
  mkPlaceBody (Some [mkItem pid quantity; mkItem pid quantity])
              (Some shipping_info) None.


(** The cart lines that do not belong to [uid] are the same in both. *)
Definition others_untouched (uid : string) (cs cs' : gmap string CartItem) : Prop :=
  ∀ id line,
    ci_user_id line ≠ uid →
    (cs' !! id = Some line ↔ cs !! id = Some line).

(** How many milestones the tracking page shows for a status. *)
Definition milestones (status : string) : nat :=
  if String.eqb status "delivered" then 4%nat
  else if String.eqb status "shipped" then 3%nat
  else if String.eqb status "processing" then 2%nat
  else 1%nat.


(** * Properties of the handlers *)

(** ** Lists without duplicates *)

Section lists.
Context {A B : Type}.

Lemma NoDup_fmap_agree (f : A → B) (l : list A) x y :
  NoDup (f <$> l) → x ∈ l → y ∈ l → f x = f y → x = y.
Proof.
  induction l as [|a l IH]; simpl; intros Hnd Hx Hy Hf.
  - by apply elem_of_nil in Hx.
  - apply NoDup_cons in Hnd as [Hna Hnd].
    apply elem_of_cons in Hx as [->|Hx]; apply elem_of_cons in Hy as [->|Hy].
    + done.
    + exfalso. apply Hna. rewrite Hf. by apply list_elem_of_fmap_2.
    + exfalso. apply Hna. rewrite <- Hf. by apply list_elem_of_fmap_2.
    + by apply IH.
Qed.

Lemma NoDup_only (l : list A) a :
  NoDup l → a ∈ l → (∀ x, x ∈ l → x = a) → l = [a].
Proof.
  intros Hnd Ha Hall. destruct l as [|x l]; [by apply elem_of_nil in Ha|].
  assert (x = a) as -> by (apply Hall; left).
  destruct l as [|y l]; [done|].
  assert (y = a) as -> by (apply Hall; right; left).
  apply NoDup_cons in Hnd as [Hna _]. exfalso. apply Hna. left.
Qed.
End lists.

(** ** The pricing loop and order placement *)

Lemma build_order_items_spec ps its total acc :
  match build_order_items ps its total acc with
  | inl _ => existsb (line_rejected ps) its = true
  | inr (total', acc') =>
      existsb (line_rejected ps) its = false
      ∧ ∃ lines,
          acc' = acc ++ lines
          ∧ total' = foldl (λ total_price line, (total_price + oi_total line)%float)
                           total lines
          ∧ Forall2 (priced ps) its lines
  end.
Proof.
  revert total acc.
  induction its as [|item its IH]; intros total acc; simpl.
  - split; [done|]. exists []. rewrite app_nil_r. by split_and!; [..|constructor].
  - assert (Hrej : line_rejected ps item =
                    match ps !! it_product_id item with
                    | None => true
                    | Some product => prod_stock product <? it_quantity item
                    end) by done.
    rewrite Hrej. clear Hrej.
    destruct (ps !! it_product_id item) as [product|] eqn:Hp; simpl; [|done].
    destruct (prod_stock product <? it_quantity item) eqn:Hs; simpl; [done|].
    specialize (IH (total + prod_price product * number_of_Z (it_quantity item))%float
                   (acc ++ [mkOrderItem (it_product_id item) (prod_title product)
                              (prod_image_url product) (prod_price product)
                              (it_quantity item)
                              (prod_price product * number_of_Z (it_quantity item))%float])).
    destruct (build_order_items ps its _ _) as [msg|[total' acc']]; [done|].
    destruct IH as (Hex & lines & -> & -> & Hall).
    split; [done|].
    eexists (_ :: lines). split_and!.
    + by rewrite <- app_assoc.
    + done.
    + constructor; [|done]. exists product. split_and!; [done|lia|done].
Qed.

Lemma build_order_items_rejected ps its total acc :
  existsb (line_rejected ps) its = true →
  ∃ msg, build_order_items ps its total acc = inl msg.
Proof.
  intros Hex. pose proof (build_order_items_spec ps its total acc) as H.
  destruct (build_order_items ps its total acc) as [msg|[total' acc']]; [by eexists|].
  destruct H as [H _]. congruence.
Qed.

Lemma build_order_items_accepted ps its total acc :
  existsb (line_rejected ps) its = false →
  ∃ lines, build_order_items ps its total acc
           = inr (foldl (λ total_price line, (total_price + oi_total line)%float)
                        total lines,
                  acc ++ lines)
           ∧ Forall2 (priced ps) its lines.
Proof.
  intros Hex. pose proof (build_order_items_spec ps its total acc) as H.
  destruct (build_order_items ps its total acc) as [msg|[total' acc']]; [congruence|].
  destruct H as (_ & lines & -> & -> & Hall). by exists lines.
Qed.

Lemma place_invalid now st user body :
  input_invalid body = true →
  place now st user body = (Err 400 "Items are required", st)
  ∨ place now st user body = (Err 400 "Shipping information is required", st).
Proof.
  unfold input_invalid, place. intros H.
  destruct (pb_items body) as [[|item its]|]; [by left| |by left].
  destruct (pb_shipping_info body) as [si|]; [|by right].
  rewrite H. by right.
Qed.

Lemma place_checked now st user body :
  input_invalid body = false →
  place now st user body =
    match build_order_items (products st) (default [] (pb_items body)) 0%float [] with
    | inl msg => (Err 400 msg, st)
    | inr (total_price, lines) =>
        (Ok 201 (fresh (dom (orders st)),
                 mkOrder (u_id user) lines (default ∅ (pb_shipping_info body))
                         total_price (default "card" (pb_payment_method body))
                         "pending" "pending" (now + seven_days) None),
         mkStore (auth_sessions st) (users st)
                 (foldl decrement_stock (products st) (default [] (pb_items body)))
                 (<[fresh (dom (orders st)) :=
                      mkOrder (u_id user) lines (default ∅ (pb_shipping_info body))
                              total_price (default "card" (pb_payment_method body))
                              "pending" "pending" (now + seven_days) None]>
                    (orders st))
                 (clear_cart (u_id user) (cart_items st)))
    end.
Proof.
  unfold input_invalid, place. intros H.
  destruct (pb_items body) as [[|item its]|]; [done| |done].
  destruct (pb_shipping_info body) as [si|]; [|done].
  rewrite H.
  change (default [] (Some (item :: its))) with (item :: its).
  change (default ∅ (Some si)) with si.
  by destruct (build_order_items (products st) (item :: its) 0%float [])
    as [msg|[total_price lines]].
Qed.

Lemma place_accepted now st user body :
  fails_validation st body = false →
  ∃ lines,
    Forall2 (priced (products st)) (default [] (pb_items body)) lines
    ∧ place now st user body
      = (Ok 201 (fresh (dom (orders st)), placed_order now user body lines),
         placed_store now st user body lines).
Proof.
  unfold fails_validation. intros [Hin Hex]%orb_false_iff.
  destruct (build_order_items_accepted _ _ 0%float [] Hex) as (lines & Hb & Hall).
  exists lines. split; [done|].
  rewrite (place_checked _ _ _ _ Hin), Hb. simpl. done.
Qed.

Lemma place_rejected now st user body :
  fails_validation st body = true →
  ∃ msg, place now st user body = (Err 400 msg, st).
Proof.
  unfold fails_validation. intros H.
  destruct (input_invalid body) eqn:Hin.
  - destruct (place_invalid now st user body Hin) as [->| ->]; by eexists.
  - simpl in H. destruct (build_order_items_rejected _ _ 0%float [] H) as [msg Hb].
    exists msg. by rewrite (place_checked _ _ _ _ Hin), Hb.
Qed.

(** C1. Order placement is all-or-nothing: a request that fails
    validation (no items, shipping information rejected by the handler, a
    line whose product is missing or whose quantity exceeds the current
    stock) is answered with an error, and the store it leaves is the
    store it found: no order row, no stock change, the cart untouched. *)
Theorem place_all_or_nothing now st user body :
  fails_validation st body = true →
  ∃ msg st',
    place now st user body = (Err 400 msg, st')
    ∧ st' = st
    ∧ orders st' = orders st
    ∧ products st' = products st
    ∧ cart_items st' = cart_items st.
Proof.
  intros H. destruct (place_rejected now st user body H) as [msg Hp].
  by exists msg, st.
Qed.

Lemma place_all_or_nothing_witness :
  fails_validation Sample.shop Sample.order_five_widgets = true
  ∧ ∃ msg st',
      place 0 Sample.shop Sample.alice Sample.order_five_widgets = (Err 400 msg, st')
      ∧ st' = Sample.shop
      ∧ orders st' = orders Sample.shop
      ∧ products st' = products Sample.shop
      ∧ cart_items st' = cart_items Sample.shop.
Proof.
  split; [vm_compute; reflexivity|].
  apply (place_all_or_nothing 0 Sample.shop Sample.alice Sample.order_five_widgets).
  vm_compute; reflexivity.
Defined.

Lemma place_ok_passed now st user body code res st' :
  place now st user body = (Ok code res, st') →
  fails_validation st body = false.
Proof.
  intros Hp. destruct (fails_validation st body) eqn:Hf; [|done].
  destruct (place_rejected now st user body Hf) as [msg Hm]. congruence.
Qed.

Lemma update_product_orders st user id updates :
  orders (update_product st user id updates).2 = orders st.
Proof.
  unfold update_product.
  destruct (negb (requireAdmin (Some user))); [done|].
  by destruct (products st !! id).
Qed.






Lemma cart_add_orders st user body :
  orders (cart_add st user body).2 = orders st.
Proof.
  unfold cart_add.
  repeat (match goal with
          | |- context [if ?b then _ else _] => destruct b
          | |- context [match ?x with _ => _ end] => destruct x
          end; try done).
Qed.

Lemma cart_update_orders st user id quantity :
  orders (cart_update st user id quantity).2 = orders st.
Proof.
  unfold cart_update.
  repeat (match goal with
          | |- context [if ?b then _ else _] => destruct b
          | |- context [match ?x with _ => _ end] => destruct x
          end; try done).
Qed.





Lemma in_stock_not_rejected ps its :
  Forall (in_stock ps) its → existsb (line_rejected ps) its = false.
Proof.
  induction 1 as [|item its (product & Hp & Hq) _ IH]; simpl; [done|].
  rewrite IH, orb_false_r. unfold line_rejected. rewrite Hp. lia.
Qed.

Lemma cart_add_unapproved st user pid product quantity :
  pid ≠ "" →
  0 < quantity →
  products st !! pid = Some product →
  prod_approved_by_ai product = false →
  cart_add st user (mkCartAddBody (Some pid) (Some quantity))
  = (Err 404 "Product not found", st).
Proof.
  intros Hpid Hq Hp Ha. unfold cart_add. simpl.
  apply String.eqb_neq in Hpid. rewrite Hpid. simpl.
  destruct (quantity <=? 0) eqn:Hle; [lia|].
  by rewrite Hp, Ha.
Qed.

(** C9. Placement never looks at the approval flag: a request whose lines
    all name existing products with enough stock is accepted, an
    unapproved product among them included, and the order carries a line
    for it; adding that same product to the cart is answered 404. *)
Theorem place_ignores_approval now st user body pid quantity product :
  input_invalid body = false →
  Forall (in_stock (products st)) (default [] (pb_items body)) →
  mkItem pid quantity ∈ default [] (pb_items body) →
  products st !! pid = Some product →
  prod_approved_by_ai product = false →
  pid ≠ "" →
  0 < quantity →
  (∃ id order st',
     place now st user body = (Ok 201 (id, order), st')
     ∧ orders st' !! id = Some order
     ∧ ∃ line, line ∈ o_items order
               ∧ oi_product_id line = pid ∧ oi_quantity line = quantity)
  ∧ cart_add st user (mkCartAddBody (Some pid) (Some quantity))
    = (Err 404 "Product not found", st).
Proof.
  intros Hin Hall Hitem Hp Ha Hpid Hq. split.
  - assert (Hf : fails_validation st body = false).
    { unfold fails_validation. by rewrite Hin, in_stock_not_rejected. }
    destruct (place_accepted now st user body Hf) as (lines & Hpr & Heq).
    eexists _, _, _. split; [exact Heq|]. split; [apply lookup_insert_eq|].
    apply list_elem_of_lookup in Hitem as [i Hi].
    destruct (Forall2_lookup_l _ _ _ _ _ Hpr Hi) as (line & Hl & product' & _ & _ & ->).
    eexists. split; [by eapply list_elem_of_lookup_2|]. done.
  - by eapply cart_add_unapproved.
Qed.

Lemma place_ignores_approval_witness :
  (∃ id order st',
     place 0 Sample.shop Sample.alice Sample.order_draft = (Ok 201 (id, order), st')
     ∧ orders st' !! id = Some order
     ∧ ∃ line, line ∈ o_items order
               ∧ oi_product_id line = "p3" ∧ oi_quantity line = 1)
  ∧ cart_add Sample.shop Sample.alice (mkCartAddBody (Some "p3") (Some 1))
    = (Err 404 "Product not found", Sample.shop).
Proof.
  apply (place_ignores_approval 0 Sample.shop Sample.alice Sample.order_draft
           "p3" 1 Sample.draft).
  - vm_compute; reflexivity.
  - repeat constructor. exists Sample.draft. split; [reflexivity|simpl; lia].
  - simpl. apply list_elem_of_here.
  - reflexivity.
  - reflexivity.
  - discriminate.
  - lia.
Defined.

(** ** Input validation of POST /api/orders *)

Lemma build_order_items_message ps its total acc msg :
  build_order_items ps its total acc = inl msg → ¬ validation_message msg.
Proof.
  revert total acc. induction its as [|item its IH]; intros total acc; simpl; [done|].
  destruct (ps !! it_product_id item) as [product|].
  - destruct (prod_stock product <? it_quantity item); [|by apply IH].
    intros [= <-] [H|H]; simpl in H; discriminate.
  - intros [= <-] [H|H]; simpl in H; discriminate.
Qed.

(** C8, as stated, fails: a request with one line in stock whose shipping
    information has an address and a city but no full name, state, postal
    code or phone is accepted with 201. *)
Lemma place_accepts_short_address :
  ¬ (∀ now st user body,
       must_be_rejected body = true →
       ∃ status msg, (place now st user body).1 = Err status msg).
Proof.
  intros H.
  destruct (H 0 Sample.shop Sample.alice Sample.order_two_widgets eq_refl)
    as (status & msg & Hm).
  vm_compute in Hm. discriminate.
Qed.

(** C8, amended. Placement answers 400 with one of its two validation
    messages exactly when the item list is missing or empty, or the
    shipping information is missing or lacks a non-empty [address] or
    [city]; no other shipping field takes part in the decision, and a
    rejected request leaves the store as it was. *)
Theorem place_validation now st user body :
  (∃ msg, validation_message msg
          ∧ place now st user body = (Err 400 msg, st))
  ↔ input_invalid body = true.
Proof.
  split.
  - intros (msg & Hv & Hp).
    destruct (input_invalid body) eqn:Hin; [done|].
    rewrite (place_checked _ _ _ _ Hin) in Hp.
    destruct (build_order_items _ _ _ _) as [msg'|[total lines]] eqn:Hb; [|done].
    simplify_eq. by apply build_order_items_message in Hb.
  - intros Hin.
    destruct (place_invalid now st user body Hin) as [->| ->];
      eexists; (split; [|done]); [by left|by right].
Qed.

Lemma place_validation_witness :
  input_invalid (mkPlaceBody (Some [mkItem "p1" 1]) (Some (<["city" := "Springfield"]> ∅)) None) = true
  ∧ ∃ msg, validation_message msg
           ∧ place 0 Sample.shop Sample.alice
               (mkPlaceBody (Some [mkItem "p1" 1]) (Some (<["city" := "Springfield"]> ∅)) None)
             = (Err 400 msg, Sample.shop).
Proof.
  split; [vm_compute; reflexivity|].
  apply (place_validation 0 Sample.shop Sample.alice
           (mkPlaceBody (Some [mkItem "p1" 1]) (Some (<["city" := "Springfield"]> ∅)) None)).
  vm_compute; reflexivity.
Defined.

(** ** Cancellation and stock restore *)

Lemma add_stock_0 p : add_stock 0 p = p.
Proof. destruct p. unfold add_stock, with_stock. simpl. f_equal. lia. Qed.

Lemma add_stock_add n m p : add_stock m (add_stock n p) = add_stock (n + m) p.
Proof. destruct p. unfold add_stock, with_stock. simpl. f_equal. lia. Qed.

Lemma restore_stock_lookup ps line pid :
  restore_stock ps line !! pid
  = (if decide (oi_product_id line = pid)
     then add_stock (oi_quantity line) <$> ps !! pid
     else ps !! pid).
Proof.
  unfold restore_stock.
  destruct (ps !! oi_product_id line) as [cur|] eqn:Hcur.
  - case_decide as Heq.
    + subst pid. by rewrite lookup_insert_eq, Hcur.
    + by rewrite lookup_insert_ne.
  - case_decide as Heq; [|done]. subst pid. by rewrite Hcur.
Qed.

Lemma restore_stock_all lines ps pid :
  foldl restore_stock ps lines !! pid
  = add_stock (restored_quantity pid lines) <$> ps !! pid.
Proof.
  revert ps. induction lines as [|line lines IH]; intros ps; simpl.
  - destruct (ps !! pid) as [p|]; simpl; [|done]. by rewrite add_stock_0.
  - rewrite IH, restore_stock_lookup.
    case_decide as Heq; [|done].
    destruct (ps !! pid) as [p|]; simpl; [|done]. by rewrite add_stock_add.
Qed.

(** The cancellation handler once it is past its three guards. *)
Lemma permitted_guard user order :
  may_cancel user order →
  negb (u_role user =? "admin")%string
  && negb (o_user_id order =? u_id user)%string = false.
Proof.
  intros Hmay. apply andb_false_iff.
  destruct Hmay as [Hr|Hu]; [left|right]; by apply negb_false_iff, String.eqb_eq.
Qed.

(** Past its three guards the handler issues the UPDATE, which names a
    column that [orders] does not have: the answer is 500 and neither the
    order nor any stock is written. *)
Lemma cancel_past_guards st user id reason order :
  orders st !! id = Some order →
  may_cancel user order →
  o_status order ≠ "shipped" →
  o_status order ≠ "delivered" →
  cancel st user id reason
  = (Err 500 (column_error "cancellation_reason"), st).
Proof.
  intros Ho Hmay Hs Hd. unfold cancel. rewrite Ho, (permitted_guard _ _ Hmay).
  apply String.eqb_neq in Hs, Hd. by rewrite Hs, Hd.
Qed.

(** The guard of the cancellation handler names only [shipped] and
    [delivered]: these two are refused with 400 and nothing changes. *)
Lemma cancel_shipped_or_delivered st user id reason order :
  orders st !! id = Some order →
  may_cancel user order →
  o_status order = "shipped" ∨ o_status order = "delivered" →
  cancel st user id reason
  = (Err 400 "Cannot cancel shipped or delivered orders", st).
Proof.
  intros Ho Hmay Hst. unfold cancel. rewrite Ho, (permitted_guard _ _ Hmay).
  by destruct Hst as [-> | ->].
Qed.

(** C3, on the code. Alice's order of two widgets is pending and has
    taken the stock from 3 to 1; she cancels it with a reason.  The
    handler's UPDATE writes [cancellation_reason], which the [orders]
    table of the schema does not have, so the answer is 500: the order is
    still pending and the stock is still 1, not restored to 3.  The
    restore loop that the handler does not get to is additive: run over
    any lines, it leaves every product with its stock plus the quantities
    of the lines that name it. *)
Theorem cancel_pending_order_fails :
  o_status <$> orders Sample.after_place !! "0" = Some "pending"
  ∧ o_user_id <$> orders Sample.after_place !! "0" = Some (u_id Sample.alice)
  ∧ prod_stock <$> products Sample.shop !! "p1" = Some 3
  ∧ prod_stock <$> products Sample.after_place !! "p1" = Some 1
  ∧ ("cancellation_reason" ∉ orders_columns)
  ∧ (∃ st',
       cancel Sample.after_place Sample.alice "0" (Some "changed my mind")
       = (Err 500 (column_error "cancellation_reason"), st')
       ∧ o_status <$> orders st' !! "0" = Some "pending"
       ∧ prod_stock <$> products st' !! "p1" = Some 1)
  ∧ ∀ ps lines pid,
      prod_stock <$> foldl restore_stock ps lines !! pid
      = (λ product, prod_stock product + restored_quantity pid lines) <$> ps !! pid.
Proof.
  split_and!; [vm_compute; reflexivity..| | |].
  - apply (bool_decide_unpack _). vm_compute. exact I.
  - eexists. split_and!; vm_compute; reflexivity.
  - intros ps lines pid. rewrite restore_stock_all.
    by destruct (ps !! pid).
Qed.

Lemma reach_after_admin_cancel : rtc step Sample.shop Sample.after_admin_cancel.
Proof.
  eapply rtc_l; [apply (step_place 0 Sample.shop Sample.alice Sample.order_two_widgets)|].
  eapply rtc_l; [|apply rtc_refl].
  apply (step_update_status Sample.after_place Sample.root "0" (Some "cancelled") None).
Qed.

(** C2, on the code. An order that is [cancelled] (here through the
    admin's status update) passes the guard of the cancellation handler,
    which names only [shipped] and [delivered]: cancelling it is not
    refused with 400 but runs into the UPDATE and is answered 500.
    Likewise a second cancellation of a pending order gets the same 500
    as the first, which cancelled nothing.  No stock is restored either
    time. *)
Theorem cancel_cancelled_order_not_refused :
  rtc step Sample.shop Sample.after_admin_cancel
  ∧ o_status <$> orders Sample.after_admin_cancel !! "0" = Some "cancelled"
  ∧ cancel Sample.after_admin_cancel Sample.alice "0" None
    = (Err 500 (column_error "cancellation_reason"), Sample.after_admin_cancel)
  ∧ cancel Sample.after_place Sample.alice "0" None
    = (Err 500 (column_error "cancellation_reason"), Sample.after_place)
  ∧ cancel (cancel Sample.after_place Sample.alice "0" None).2 Sample.alice "0" None
    = (Err 500 (column_error "cancellation_reason"), Sample.after_place)
  ∧ cancel Sample.after_delivery Sample.alice "0" None
    = (Err 400 "Cannot cancel shipped or delivered orders", Sample.after_delivery).
Proof.
  split; [exact reach_after_admin_cancel|].
  split; [vm_compute; reflexivity|].
  split_and!.
  - eapply cancel_past_guards; [vm_compute; reflexivity|by right|discriminate..].
  - eapply cancel_past_guards; [vm_compute; reflexivity|by right|discriminate..].
  - erewrite (cancel_past_guards Sample.after_place);
      [done|vm_compute; reflexivity|by right|discriminate..].
  - eapply cancel_shipped_or_delivered; [vm_compute; reflexivity|by right|by right].
Qed.

(** ** Admin status update *)

Lemma update_status_admin st user id status tracking_number :
  u_role user = "admin" →
  update_status st user id status tracking_number
  = if negb (includes validStatuses status)
    then (Err 400 "Invalid status", st)
    else match orders st !! id with
         | None => (Err 500 no_rows, st)
         | Some row =>
             (Ok 200 (id, with_status (default "" status)
                            (if truthy tracking_number then tracking_number else None)
                            row),
              set_orders
                (<[id := with_status (default "" status)
                           (if truthy tracking_number then tracking_number else None)
                           row]> (orders st)) st)
         end.
Proof. intros Hr. unfold update_status, requireAdmin. by rewrite Hr. Qed.

Lemma reach_after_delivery : rtc step Sample.shop Sample.after_delivery.
Proof.
  eapply rtc_l; [apply (step_place 0 Sample.shop Sample.alice Sample.order_two_widgets)|].
  eapply rtc_l; [|apply rtc_refl].
  apply (step_update_status Sample.after_place Sample.root "0" (Some "delivered") (Some "TRACK-1")).
Qed.

(** C5, as stated, fails: an order placed and then marked [delivered] by
    the admin is moved back to [pending] by a further admin update, which
    is backwards along the chain and out of a terminal state. *)
Lemma update_status_moves_backwards :
  rtc step Sample.shop Sample.after_delivery
  ∧ o_status <$> orders Sample.after_delivery !! "0" = Some "delivered"
  ∧ moves_backwards "delivered" "pending" = true
  ∧ leaves_terminal "delivered" "pending" = true
  ∧ ∃ order' st',
      update_status Sample.after_delivery Sample.root "0" (Some "pending") None
      = (Ok 200 ("0", order'), st')
      ∧ o_status <$> orders st' !! "0" = Some "pending".
Proof.
  split; [exact reach_after_delivery|].
  split_and!; [vm_compute; reflexivity..|].
  eexists _, _. split; vm_compute; reflexivity.
Qed.

(** C5, amended. The admin status update checks the new value only: for
    an existing order, any of the five status names is accepted whatever
    the current status and becomes the stored status, the rest of the
    order (tracking number apart) and the other orders staying as they
    are; any other value is refused with 400 and the store is unchanged.
    Products and cart are never touched. *)
Theorem update_status_unguarded st user id status tracking_number order :
  u_role user = "admin" →
  orders st !! id = Some order →
  (status ∈ validStatuses →
   ∃ order' st',
     update_status st user id (Some status) tracking_number
     = (Ok 200 (id, order'), st')
     ∧ orders st' = <[id := order']> (orders st)
     ∧ o_status order' = status
     ∧ o_items order' = o_items order
     ∧ o_total_price order' = o_total_price order
     ∧ products st' = products st
     ∧ cart_items st' = cart_items st)
  ∧ (status ∉ validStatuses →
     update_status st user id (Some status) tracking_number
     = (Err 400 "Invalid status", st)).
Proof.
  intros Hr Ho. rewrite (update_status_admin _ _ _ _ _ Hr). simpl. split.
  - intros Hin. rewrite bool_decide_eq_true_2 by done. simpl. rewrite Ho.
    eexists _, _. split; [done|]. by simpl.
  - intros Hnin. by rewrite bool_decide_eq_false_2 by done.
Qed.

Lemma update_status_unguarded_witness :
  (∃ order' st',
     update_status Sample.after_delivery Sample.root "0" (Some "processing")
       (Some "TRACK-2")
     = (Ok 200 ("0", order'), st')
     ∧ o_status order' = "processing")
  ∧ update_status Sample.after_delivery Sample.root "0" (Some "returned")
      (Some "TRACK-2")
    = (Err 400 "Invalid status", Sample.after_delivery).
Proof.
  assert (Ho : orders Sample.after_delivery !! "0"
               = Some (with_status "delivered" (Some "TRACK-1")
                         widget_order))
    by (vm_compute; reflexivity).
  split.
  - destruct (update_status_unguarded Sample.after_delivery Sample.root "0"
                "processing" (Some "TRACK-2") _ eq_refl Ho)
      as [Hok _].
    destruct Hok as (order' & st' & Hu & _ & Hs & _).
    + unfold validStatuses. set_solver.
    + by exists order', st'.
  - destruct (update_status_unguarded Sample.after_delivery Sample.root "0"
                "returned" (Some "TRACK-2") _ eq_refl Ho)
      as [_ Herr].
    apply Herr. unfold validStatuses.
    apply not_elem_of_cons; split; [discriminate|].
    apply not_elem_of_cons; split; [discriminate|].
    apply not_elem_of_cons; split; [discriminate|].
    apply not_elem_of_cons; split; [discriminate|].
    apply not_elem_of_cons; split; [discriminate|].
    apply not_elem_of_nil.
Defined.

(** ** Cart add *)

Lemma elem_of_cart_lines_of uid pid cs id line :
  (id, line) ∈ cart_lines_of uid pid cs
  ↔ cs !! id = Some line ∧ ci_user_id line = uid ∧ ci_product_id line = pid.
Proof.
  unfold cart_lines_of.
  rewrite elem_of_map_to_list, map_lookup_filter_Some. simpl. tauto.
Qed.

Lemma cart_lines_of_none uid pid cs :
  (∀ id line, cs !! id = Some line →
              ¬ (ci_user_id line = uid ∧ ci_product_id line = pid)) →
  cart_lines_of uid pid cs = [].
Proof.
  intros Hno. unfold cart_lines_of.
  apply map_to_list_empty_iff, map_empty_filter_2.
  intros id line Hl. simpl. exact (Hno id line Hl).
Qed.

Lemma cart_lines_of_one uid pid cs id line :
  cart_unique cs →
  cs !! id = Some line →
  ci_user_id line = uid →
  ci_product_id line = pid →
  cart_lines_of uid pid cs = [(id, line)].
Proof.
  intros Hu Hl Huid Hpid.
  apply NoDup_only.
  - apply NoDup_map_to_list.
  - by apply elem_of_cart_lines_of.
  - intros [j b] (Hj & Hbu & Hbp)%elem_of_cart_lines_of.
    apply (NoDup_fmap_agree cart_key (map_to_list cs)); [done| | |].
    + by apply elem_of_map_to_list.
    + by apply elem_of_map_to_list.
    + unfold cart_key. simpl. congruence.
Qed.

Lemma NoDup_submseteq_inv {A} (l k : list A) : l ⊆+ k → NoDup k → NoDup l.
Proof.
  intros [k' Hk]%submseteq_Permutation Hnd. rewrite Hk in Hnd.
  by apply NoDup_app in Hnd as [? _].
Qed.

Lemma cart_unique_filter (P : string * CartItem → Prop) `{!∀ x, Decision (P x)} cs :
  cart_unique cs → cart_unique (filter P cs).
Proof.
  unfold cart_unique. apply NoDup_submseteq_inv.
  apply fmap_submseteq, map_to_list_submseteq, map_filter_subseteq.
Qed.

Lemma cart_unique_update cs id line q :
  cs !! id = Some line →
  cart_unique cs → cart_unique (<[id := with_quantity q line]> cs).
Proof.
  unfold cart_unique. intros Hl Hu.
  rewrite <- (map_to_list_delete cs id line Hl) in Hu.
  rewrite <- insert_delete_eq.
  rewrite map_to_list_insert by apply lookup_delete_eq.
  rewrite fmap_cons in *. done.
Qed.

Lemma cart_unique_insert cs id uid pid q :
  cs !! id = None →
  cart_lines_of uid pid cs = [] →
  cart_unique cs → cart_unique (<[id := mkCartItem uid pid q]> cs).
Proof.
  unfold cart_unique. intros Hn Hnil Hu.
  rewrite map_to_list_insert by done. rewrite fmap_cons.
  apply NoDup_cons. split; [|done].
  intros ([j b] & Hk & Hjb)%list_elem_of_fmap.
  apply elem_of_map_to_list in Hjb.
  assert ((j, b) ∈ cart_lines_of uid pid cs) as Hin.
  { apply elem_of_cart_lines_of. unfold cart_key in Hk. simpl in Hk.
    by simplify_eq. }
  rewrite Hnil in Hin. by apply elem_of_nil in Hin.
Qed.

Lemma single_Some {A} (rows : list (string * A)) r :
  single rows = Some r → rows = [r].
Proof. destruct rows as [|x [|y rows]]; simpl; congruence. Qed.

Lemma cart_add_keeps_wf st user body :
  cart_wf (cart_items st) → cart_wf (cart_items (cart_add st user body).2).
Proof.
  intros [Hu Hpos]. unfold cart_add.
  destruct (negb (truthy (cab_product_id body))); [done|].
  destruct (default 1 (cab_quantity body) <=? 0) eqn:Hq; [done|].
  destruct (products st !! _) as [product|]; [|done].
  destruct (negb (prod_approved_by_ai product)); [done|].
  destruct (prod_stock product <? _); [done|].
  destruct (single _) as [[id line]|] eqn:Hs.
  - destruct (prod_stock product <? _); [done|]. simpl.
    apply single_Some in Hs.
    assert ((id, line) ∈ cart_lines_of (u_id user)
              (default "" (cab_product_id body)) (cart_items st)) as Hin
      by (rewrite Hs; left).
    apply elem_of_cart_lines_of in Hin as (Hl & _ & _).
    split; [by apply cart_unique_update|].
    apply map_Forall_insert_2; [|done]. simpl.
    specialize (Hpos id line Hl). simpl in Hpos. lia.
  - destruct (cart_lines_of _ _ _) eqn:Hnil; [|done]. simpl. split.
    + apply cart_unique_insert; [|done|done]. apply not_elem_of_dom, is_fresh.
    + apply map_Forall_insert_2; [simpl; lia|done].
Qed.

Lemma cart_remove_keeps_wf st user id :
  cart_wf (cart_items st) → cart_wf (cart_items (cart_remove st user id).2).
Proof.
  intros [Hu Hpos]. simpl. split; [by apply cart_unique_filter|].
  intros j line [Hj _]%map_lookup_filter_Some. by apply (Hpos j).
Qed.

(** The cart invariant also survives order placement, which empties the
    caller's cart. *)
Lemma place_keeps_wf now st user body :
  cart_wf (cart_items st) → cart_wf (cart_items (place now st user body).2).
Proof.
  intros Hwf. destruct (fails_validation st body) eqn:Hf.
  - destruct (place_rejected now st user body Hf) as [msg ->]. done.
  - destruct (place_accepted now st user body Hf) as (lines & _ & ->). simpl.
    destruct Hwf as [Hu Hpos]. split; [by apply cart_unique_filter|].
    intros j line [Hj _]%map_lookup_filter_Some. by apply (Hpos j).
Qed.

(** Hence the invariant holds along every run of the backend. *)
Lemma cart_update_keeps_wf st user id quantity :
  cart_wf (cart_items st) → cart_wf (cart_items (cart_update st user id quantity).2).
Proof.
  intros [Hu Hpos]. unfold cart_update.
  destruct quantity as [quantity|]; [|done].
  destruct (quantity <=? 0) eqn:Hq; [done|].
  destruct (cart_items st !! id) as [cartItem|] eqn:Hl; [|done].
  destruct (negb _); [done|].
  destruct (products st !! _) as [product|]; [|done].
  destruct (prod_stock product <? quantity); [done|]. simpl.
  split; [by apply cart_unique_update|].
  apply map_Forall_insert_2; [simpl; lia|done].
Qed.

Lemma cart_clear_keeps_wf st user :
  cart_wf (cart_items st) → cart_wf (cart_items (cart_clear st user).2).
Proof.
  intros [Hu Hpos]. simpl. split; [by apply cart_unique_filter|].
  intros j line [Hj _]%map_lookup_filter_Some. by apply (Hpos j).
Qed.

Lemma step_keeps_cart_wf st st' :
  step st st' → cart_wf (cart_items st) → cart_wf (cart_items st').
Proof.
  destruct 1 as [now st user body|st user id reason|st user id status tn
                 |st user id payment_status|st user id updates|st user body
                 |st user id quantity|st user id|st user].
  - apply place_keeps_wf.
  - unfold cancel. destruct (orders st !! id) as [order|]; [|done].
    destruct (_ && _); [done|]. by destruct (_ || _).
  - unfold update_status.
    destruct (negb (requireAdmin _)); [done|].
    destruct (negb (includes _ _)); [done|].
    by destruct (orders st !! id).
  - unfold update_payment_status.
    destruct (negb (requireAdmin _)); [done|].
    destruct (negb (includes _ _)); [done|].
    by destruct (orders st !! id).
  - unfold update_product.
    destruct (negb (requireAdmin _)); [done|].
    by destruct (products st !! id).
  - apply cart_add_keeps_wf.
  - apply cart_update_keeps_wf.
  - apply cart_remove_keeps_wf.
  - apply cart_clear_keeps_wf.
Qed.

Lemma run_keeps_cart_wf st st' :
  rtc step st st' → cart_wf (cart_items st) → cart_wf (cart_items st').
Proof.
  induction 1 as [st|st st1 st2 Hs _ IH]; [done|].
  intros Hwf. apply IH. by eapply step_keeps_cart_wf.
Qed.

Lemma cart_add_approved st user pid quantity product :
  pid ≠ "" →
  1 ≤ quantity →
  products st !! pid = Some product →
  prod_approved_by_ai product = true →
  cart_add st user (mkCartAddBody (Some pid) (Some quantity))
  = if prod_stock product <? quantity
    then (Err 400 "Insufficient stock", st)
    else
      match single (cart_lines_of (u_id user) pid (cart_items st)) with
      | Some (id, existingItem) =>
          if prod_stock product <? ci_quantity existingItem + quantity
          then (Err 400 "Not enough stock available", st)
          else
            (Ok 200 (id, with_quantity (ci_quantity existingItem + quantity) existingItem),
             set_cart_items
               (<[id := with_quantity (ci_quantity existingItem + quantity) existingItem]>
                  (cart_items st)) st)
      | None =>
          match cart_lines_of (u_id user) pid (cart_items st) with
          | [] =>
              (Ok 201 (fresh (dom (cart_items st)),
                       mkCartItem (u_id user) pid quantity),
               set_cart_items
                 (<[fresh (dom (cart_items st)) :=
                      mkCartItem (u_id user) pid quantity]> (cart_items st)) st)
          | _ => (Err 500 "duplicate key value violates unique constraint", st)
          end
      end.
Proof.
  intros Hpid Hq Hp Ha. unfold cart_add. simpl.
  apply String.eqb_neq in Hpid. rewrite Hpid. simpl.
  destruct (quantity <=? 0) eqn:Hle; [lia|].
  by rewrite Hp, Ha.
Qed.

Lemma insert_line_written st id line :
  line_written st (set_cart_items (<[id := line]> (cart_items st)) st) id line.
Proof.
  unfold line_written. simpl. split_and!; try done.
  - apply lookup_insert_eq.
  - intros other Hne. by apply lookup_insert_ne.
Qed.

(** C6. Adding [quantity ≥ 1] of a product to the cart: 404 when the
    product is missing or unapproved; 400 for lack of stock when the
    quantity, together with the quantity of the caller's existing line
    for that product if there is one, exceeds the current stock;
    otherwise a new line is created under an unused id (201) or the
    existing line is incremented (200); the line is returned in its new
    state, is read back from the cart under its id afterwards, and
    nothing else in the store differs.  A refusal leaves the store as it
    was.  The cart table is one that respects its schema ([cart_wf],
    kept by every handler that writes it). *)
Theorem cart_add_contract st user pid quantity :
  pid ≠ "" →
  1 ≤ quantity →
  cart_wf (cart_items st) →
  ((products st !! pid = None
    ∨ ∃ product, products st !! pid = Some product
                 ∧ prod_approved_by_ai product = false) →
   cart_add st user (mkCartAddBody (Some pid) (Some quantity))
   = (Err 404 "Product not found", st))
  ∧ ∀ product,
      products st !! pid = Some product →
      prod_approved_by_ai product = true →
      ((∀ id line, cart_items st !! id = Some line →
                   ¬ (ci_user_id line = u_id user ∧ ci_product_id line = pid)) →
       (prod_stock product < quantity →
        cart_add st user (mkCartAddBody (Some pid) (Some quantity))
        = (Err 400 "Insufficient stock", st))
       ∧ (quantity ≤ prod_stock product →
          ∃ id st',
            cart_items st !! id = None
            ∧ cart_add st user (mkCartAddBody (Some pid) (Some quantity))
              = (Ok 201 (id, mkCartItem (u_id user) pid quantity), st')
            ∧ line_written st st' id (mkCartItem (u_id user) pid quantity)))
      ∧ (∀ id line,
           cart_items st !! id = Some line →
           ci_user_id line = u_id user →
           ci_product_id line = pid →
           (prod_stock product < ci_quantity line + quantity →
            ∃ msg, insufficient_stock_message msg
                   ∧ cart_add st user (mkCartAddBody (Some pid) (Some quantity))
                     = (Err 400 msg, st))
           ∧ (ci_quantity line + quantity ≤ prod_stock product →
              ∃ st',
                cart_add st user (mkCartAddBody (Some pid) (Some quantity))
                = (Ok 200 (id, mkCartItem (u_id user) pid (ci_quantity line + quantity)),
                   st')
                ∧ line_written st st' id
                    (mkCartItem (u_id user) pid (ci_quantity line + quantity)))).
Proof.
  intros Hpid Hq [Hu Hpos]. split.
  - intros [Hnone|(product & Hp & Ha)].
    + unfold cart_add. simpl. apply String.eqb_neq in Hpid. rewrite Hpid. simpl.
      destruct (quantity <=? 0) eqn:Hle; [lia|]. by rewrite Hnone.
    + by eapply cart_add_unapproved; [|lia|..].
  - intros product Hp Ha.
    rewrite (cart_add_approved _ _ _ _ _ Hpid Hq Hp Ha). split.
    + intros Hno. rewrite (cart_lines_of_none _ _ _ Hno). simpl. split.
      * intros Hlt. destruct (prod_stock product <? quantity) eqn:E; [done|lia].
      * intros Hle. destruct (prod_stock product <? quantity) eqn:E; [lia|].
        eexists _, _. split; [|split; [reflexivity|]].
        -- apply not_elem_of_dom, is_fresh.
        -- apply insert_line_written.
    + intros id line Hl Huid Hlpid.
      rewrite (cart_lines_of_one _ _ _ _ _ Hu Hl Huid Hlpid). simpl. split.
      * intros Hlt. destruct (prod_stock product <? quantity) eqn:E1.
        { eexists. split; [by left|done]. }
        destruct (prod_stock product <? ci_quantity line + quantity) eqn:E2; [|lia].
        eexists. split; [by right|done].
      * intros Hle. pose proof (Hpos id line Hl) as H0. simpl in H0.
        destruct (prod_stock product <? quantity) eqn:E1; [lia|].
        destruct (prod_stock product <? ci_quantity line + quantity) eqn:E2; [lia|].
        unfold with_quantity. rewrite Huid, Hlpid.
        eexists. split; [reflexivity|]. apply insert_line_written.
Qed.

Lemma cart_wf_basket : cart_wf Sample.basket.
Proof.
  split.
  - unfold cart_unique. apply (bool_decide_unpack _). vm_compute. exact I.
  - unfold cart_positive. apply (bool_decide_unpack _). vm_compute. exact I.
Defined.

Lemma cart_add_contract_witness :
  cart_items Sample.shop !! "c1" = Some (mkCartItem "u1" "p2" 4)
  ∧ ∃ st',
      cart_add Sample.shop Sample.alice (mkCartAddBody (Some "p2") (Some 6))
      = (Ok 200 ("c1", mkCartItem "u1" "p2" 10), st')
      ∧ cart_items st' !! "c1" = Some (mkCartItem "u1" "p2" 10)
      ∧ cart_items st' !! "c2" = cart_items Sample.shop !! "c2".
Proof.
  split; [reflexivity|].
  destruct (cart_add_contract Sample.shop Sample.alice "p2" 6) as [_ H].
  - discriminate.
  - lia.
  - exact cart_wf_basket.
  - destruct (H Sample.gadget eq_refl eq_refl) as [_ Hline].
    destruct (Hline "c1" (mkCartItem "u1" "p2" 4) eq_refl eq_refl eq_refl)
      as [_ Hinc].
    destruct Hinc as (st' & Hadd & Hread & Hothers & _); [simpl; lia|].
    exists st'. split; [exact Hadd|]. split; [exact Hread|].
    apply Hothers. discriminate.
Defined.

(** ** Targeted cart removal *)

Lemma cart_remove_store st user id :
  cart_remove st user id
  = (Ok 200 "Item removed from cart successfully",
     set_cart_items
       (filter (λ kv, ¬ removable (u_id user) id kv) (cart_items st)) st).
Proof. done. Qed.

Lemma filter_not_removable uid id (cs : gmap string CartItem) :
  filter (λ kv, ¬ removable uid id kv) cs
  = match cs !! id with
    | Some line => if decide (ci_user_id line = uid) then delete id cs else cs
    | None => cs
    end.
Proof.
  apply map_eq. intros j. apply option_eq. intros y.
  rewrite map_lookup_filter_Some. unfold removable. simpl.
  destruct (cs !! id) as [line|] eqn:Hl.
  - case_decide as Hu.
    + rewrite lookup_delete_Some. split.
      * intros [Hj Hn]. split; [|done]. intros <-. apply Hn. split; [done|]. congruence.
      * intros [Hne Hj]. split; [done|]. intros [? _]. congruence.
    + split; [tauto|]. intros Hj. split; [done|]. intros [-> Hy]. congruence.
  - split; [tauto|]. intros Hj. split; [done|]. intros [-> _]. congruence.
Qed.

Lemma filter_not_removable_twice uid id (cs : gmap string CartItem) :
  filter (λ kv, ¬ removable uid id kv) (filter (λ kv, ¬ removable uid id kv) cs)
  = filter (λ kv, ¬ removable uid id kv) cs.
Proof.
  apply map_eq. intros j. apply option_eq. intros y.
  rewrite !map_lookup_filter_Some. tauto.
Qed.

(** C10. Removing a cart line by id always answers 200: when the id
    names a line of the caller that line is deleted, and in every other
    case (no such line, a line removed before, a line of another user)
    nothing is deleted.  A second removal changes nothing more, and a
    line that disappears is the named line and belongs to the caller.
    Products and orders are not touched. *)
Theorem cart_remove_idempotent st user id :
  (cart_remove st user id).1 = Ok 200 "Item removed from cart successfully"
  ∧ cart_items (cart_remove st user id).2
    = match cart_items st !! id with
      | Some line =>
          if decide (ci_user_id line = u_id user)
          then delete id (cart_items st)
          else cart_items st
      | None => cart_items st
      end
  ∧ cart_remove (cart_remove st user id).2 user id = cart_remove st user id
  ∧ (∀ j line,
       cart_items st !! j = Some line →
       cart_items (cart_remove st user id).2 !! j = None →
       j = id ∧ ci_user_id line = u_id user)
  ∧ products (cart_remove st user id).2 = products st
  ∧ orders (cart_remove st user id).2 = orders st.
Proof.
  rewrite !cart_remove_store. simpl. split_and!; try done.
  - apply filter_not_removable.
  - unfold set_cart_items. simpl. by rewrite filter_not_removable_twice.
  - intros j line Hj Hgone.
    apply map_lookup_filter_None in Hgone as [Hn|Hall]; [congruence|].
    specialize (Hall line Hj).
    destruct (decide (j = id)) as [->|Hne].
    + split; [done|].
      destruct (decide (ci_user_id line = u_id user)) as [|Hne]; [done|].
      exfalso. apply Hall. unfold removable. simpl. tauto.
    + exfalso. apply Hall. unfold removable. simpl. tauto.
Qed.

(** ** Identity resolution *)

Lemma authenticateToken_resolved st authHeader token user :
  bearer_token authHeader = Some token →
  auth_sessions st !! token = Some user →
  authenticateToken st authHeader
  = match users st !! idn_id user with
    | None => Err 500 "Failed to fetch user data"
    | Some row =>
        Ok 200 (mkReqUser (idn_id user) (idn_email user) (role_or_default (Some row)))
    end.
Proof. intros Ht Hs. unfold authenticateToken. by rewrite Ht, Hs. Qed.

(** With a validated token whose user has no row in [users], the
    mandatory middleware answers 500 while the optional one attaches the
    identity with role [user]. *)
Lemma missing_row_modes st authHeader token user :
  bearer_token authHeader = Some token →
  auth_sessions st !! token = Some user →
  users st !! idn_id user = None →
  authenticateToken st authHeader = Err 500 "Failed to fetch user data"
  ∧ optionalAuth st authHeader
    = Some (mkReqUser (idn_id user) (idn_email user) "user").
Proof.
  intros Ht Hs Hu. split.
  - by rewrite (authenticateToken_resolved _ _ _ _ Ht Hs), Hu.
  - unfold optionalAuth. by rewrite Ht, Hs, Hu.
Qed.

(** When the row is there, both modes read the role from it and fall back
    to [user] only for an empty role column. *)
Lemma present_row_modes st authHeader token user row :
  bearer_token authHeader = Some token →
  auth_sessions st !! token = Some user →
  users st !! idn_id user = Some row →
  authenticateToken st authHeader
  = Ok 200 (mkReqUser (idn_id user) (idn_email user) (role_or_default (Some row)))
  ∧ optionalAuth st authHeader
    = Some (mkReqUser (idn_id user) (idn_email user) (role_or_default (Some row))).
Proof.
  intros Ht Hs Hu. split.
  - by rewrite (authenticateToken_resolved _ _ _ _ Ht Hs), Hu.
  - unfold optionalAuth. by rewrite Ht, Hs, Hu.
Qed.

(** C7, on the code. Bob's token is valid for the identity provider but
    Bob has no row in [users]: the mandatory middleware fails the request
    with 500 instead of defaulting the role, whereas the optional
    middleware does default it to [user]. *)
Theorem authenticateToken_missing_row_fails :
  auth_sessions Sample.shop !! "tok-bob" = Some (mkIdentity "u2" "bob@example.com")
  ∧ users Sample.shop !! "u2" = None
  ∧ authenticateToken Sample.shop (Some "Bearer tok-bob")
    = Err 500 "Failed to fetch user data"
  ∧ optionalAuth Sample.shop (Some "Bearer tok-bob")
    = Some (mkReqUser "u2" "bob@example.com" "user").
Proof. split_and!; vm_compute; reflexivity. Qed.

(** * Further properties *)

(** ** The bearer token *)

Lemma append_cons x (a b : string) : String x a +:+ b = String x (a +:+ b).
Proof. reflexivity. Qed.

Lemma append_nil_l (a : string) : "" +:+ a = a.
Proof. reflexivity. Qed.

Lemma append_assoc_str (a b c : string) : (a +:+ b) +:+ c = a +:+ (b +:+ c).
Proof.
  induction a as [|x a IH]; [done|]. rewrite !append_cons. by rewrite IH.
Qed.

Lemma append_empty_r (a : string) : a +:+ "" = a.
Proof. induction a as [|x a IH]; [done|]. rewrite append_cons. by rewrite IH. Qed.

Lemma split_space_word cur w :
  has_space w = false → split_space cur w = [cur +:+ w].
Proof.
  revert cur. induction w as [|c w IH]; intros cur Hw; simpl.
  - by rewrite append_empty_r.
  - simpl in Hw. apply orb_false_iff in Hw as [Hc Hw]. rewrite Hc.
    rewrite (IH _ Hw). by rewrite append_assoc_str.
Qed.

Lemma split_space_words cur w rest :
  has_space w = false →
  split_space cur (w +:+ String " " rest) = (cur +:+ w) :: split_space "" rest.
Proof.
  revert cur. induction w as [|c w IH]; intros cur Hw.
  - by rewrite append_empty_r.
  - rewrite append_cons. simpl.
    simpl in Hw. apply orb_false_iff in Hw as [Hc Hw]. rewrite Hc.
    rewrite (IH _ Hw). by rewrite append_assoc_str.
Qed.

(** X1. The token is the second space-separated word of the header: for
    a header made of any first word (the scheme is not looked at), one
    space and a non-empty token without spaces, the middleware sees that
    token, also when further words follow; a header of one word only has
    no token and is answered 401. *)
Theorem bearer_token_second_word scheme token :
  has_space scheme = false →
  has_space token = false →
  token ≠ "" →
  bearer_token (Some (scheme +:+ " " +:+ token)) = Some token
  ∧ (∀ more, bearer_token (Some (scheme +:+ " " +:+ token +:+ String " " more))
             = Some token)
  ∧ ∀ st, authenticateToken st (Some scheme) = Err 401 "Access token required".
Proof.
  intros Hs Ht Hne. apply String.eqb_neq in Hne. split_and!.
  - unfold bearer_token.
    change (" " +:+ token) with (String " " token).
    rewrite (split_space_words "" scheme token Hs).
    rewrite (split_space_word "" token Ht), !append_nil_l. simpl. by rewrite Hne.
  - intros more. unfold bearer_token.
    change (" " +:+ token +:+ String " " more)
      with (String " " (token +:+ String " " more)).
    rewrite (split_space_words "" scheme _ Hs).
    rewrite (split_space_words "" token more Ht), !append_nil_l. simpl.
    by rewrite Hne.
  - intros st. unfold authenticateToken, bearer_token.
    by rewrite (split_space_word "" scheme Hs).
Qed.

Lemma bearer_token_second_word_witness :
  bearer_token (Some "Token tok-alice") = Some "tok-alice"
  ∧ authenticateToken Sample.shop (Some "Token")
    = Err 401 "Access token required".
Proof.
  destruct (bearer_token_second_word "Token" "tok-alice") as (H1 & _ & H3).
  - reflexivity.
  - reflexivity.
  - discriminate.
  - split; [exact H1|exact (H3 Sample.shop)].
Defined.

(** ** The two authentication modes *)

(** X2. Whenever the mandatory middleware lets a request through as some
    user, the optional middleware attaches exactly that user; and the
    optional middleware leaves the request anonymous exactly when the
    mandatory one answers 401 (no token) or 403 (token not recognised). *)
Theorem auth_modes_agree st authHeader :
  (∀ status user,
     authenticateToken st authHeader = Ok status user →
     optionalAuth st authHeader = Some user)
  ∧ (optionalAuth st authHeader = None
     ↔ authenticateToken st authHeader = Err 401 "Access token required"
       ∨ authenticateToken st authHeader = Err 403 "Invalid token").
Proof.
  unfold authenticateToken, optionalAuth.
  destruct (bearer_token authHeader) as [token|].
  - destruct (auth_sessions st !! token) as [identity|].
    + destruct (users st !! idn_id identity) as [row|]; split.
      * by intros status user [= <- <-].
      * split; [done|]. by intros [?|?].
      * done.
      * split; [done|]. by intros [?|?].
    + split; [done|]. split; [by right|done].
  - split; [done|]. split; [by left|done].
Qed.

(** ** Admin routes *)

(** X3. An admin route answers with success only for a request whose
    token the identity provider resolves and whose row in [users] carries
    the role [admin]: the role is read from the table at each request,
    not from the token. *)
Theorem admin_route_needs_admin_row st authHeader id status tracking_number
    code res st' :
  route_update_status st authHeader id status tracking_number = (Ok code res, st') →
  ∃ token identity row,
    bearer_token authHeader = Some token
    ∧ auth_sessions st !! token = Some identity
    ∧ users st !! idn_id identity = Some row
    ∧ usr_role row = Some "admin".
Proof.
  unfold route_update_status, with_auth, authenticateToken.
  destruct (bearer_token authHeader) as [token|]; [|done].
  destruct (auth_sessions st !! token) as [identity|] eqn:Hs; [|done].
  destruct (users st !! idn_id identity) as [row|] eqn:Hu; [|done].
  intros Hup. exists token, identity, row. split_and!; [done..|].
  unfold update_status, requireAdmin in Hup. simpl in Hup.
  destruct (usr_role row) as [role|] eqn:Hr; simpl in Hup.
  - destruct (role =? "")%string eqn:He; simpl in Hup.
    + discriminate.
    + destruct (role =? "admin")%string eqn:Ha; [|discriminate].
      apply String.eqb_eq in Ha. by subst.
  - discriminate.
Qed.

Lemma admin_route_needs_admin_row_witness :
  ∃ token identity row,
    bearer_token (Some "Bearer tok-root") = Some token
    ∧ auth_sessions shop_with_root !! token = Some identity
    ∧ users shop_with_root !! idn_id identity = Some row
    ∧ usr_role row = Some "admin".
Proof.
  eapply (admin_route_needs_admin_row
            (place 0 shop_with_root Sample.alice Sample.order_two_widgets).2
            (Some "Bearer tok-root") "0" (Some "shipped") None).
  vm_compute. reflexivity.
Defined.

(** ** What a successful placement does to the store *)

Lemma decrement_stock_lookup ps item pid :
  decrement_stock ps item !! pid
  = (if decide (it_product_id item = pid)
     then add_stock (- it_quantity item) <$> ps !! pid
     else ps !! pid).
Proof.
  unfold decrement_stock.
  destruct (ps !! it_product_id item) as [cur|] eqn:Hcur.
  - case_decide as Heq.
    + subst pid. rewrite lookup_insert_eq, Hcur. simpl.
      unfold add_stock. do 2 f_equal; lia.
    + by rewrite lookup_insert_ne.
  - case_decide as Heq; [|done]. subst pid. by rewrite Hcur.
Qed.

Lemma decrement_stock_all items ps pid :
  foldl decrement_stock ps items !! pid
  = add_stock (- ordered_quantity pid items) <$> ps !! pid.
Proof.
  revert ps. induction items as [|item items IH]; intros ps; simpl.
  - destruct (ps !! pid) as [p|]; simpl; [|done]. by rewrite add_stock_0.
  - rewrite IH, decrement_stock_lookup.
    case_decide as Heq; [|done].
    destruct (ps !! pid) as [p|]; simpl; [|done].
    rewrite add_stock_add. do 2 f_equal. lia.
Qed.

Lemma place_ok_shape now st user body code id order st' :
  place now st user body = (Ok code (id, order), st') →
  ∃ lines,
    Forall2 (priced (products st)) (default [] (pb_items body)) lines
    ∧ code = 201
    ∧ id = fresh (dom (orders st))
    ∧ order = placed_order now user body lines
    ∧ st' = placed_store now st user body lines.
Proof.
  intros Hp. pose proof (place_ok_passed _ _ _ _ _ _ _ Hp) as Hf.
  destruct (place_accepted now st user body Hf) as (lines & Hall & Heq).
  rewrite Heq in Hp. exists lines. by simplify_eq.
Qed.

(** X4. A successful placement stores one new order, owned by the
    caller, [pending] with payment [pending], under an id no order had;
    lowers every product's stock by the quantities of the request lines
    naming it; and deletes all cart lines of the caller, whether or not
    they were ordered, and no cart line of anyone else.  Users and
    sessions are untouched. *)
Theorem place_effects now st user body code id order st' :
  place now st user body = (Ok code (id, order), st') →
  orders st !! id = None
  ∧ orders st' = <[id := order]> (orders st)
  ∧ o_user_id order = u_id user
  ∧ o_status order = "pending"
  ∧ o_payment_status order = "pending"
  ∧ o_estimated_delivery order = now + seven_days
  ∧ (∀ pid,
       products st' !! pid
       = add_stock (- ordered_quantity pid (default [] (pb_items body)))
           <$> products st !! pid)
  ∧ (∀ cid line,
       cart_items st' !! cid = Some line
       ↔ cart_items st !! cid = Some line ∧ ci_user_id line ≠ u_id user)
  ∧ users st' = users st
  ∧ auth_sessions st' = auth_sessions st.
Proof.
  intros (lines & _ & -> & -> & -> & ->)%place_ok_shape. simpl.
  split_and!; try done.
  - apply not_elem_of_dom, is_fresh.
  - intros pid. apply decrement_stock_all.
  - intros cid line. unfold clear_cart. rewrite map_lookup_filter_Some. simpl. tauto.
Qed.

Lemma place_effects_witness :
  prod_stock <$> products Sample.after_place !! "p1" = Some 1
  ∧ cart_items Sample.after_place !! "c1" = None
  ∧ cart_items Sample.after_place !! "c2" = Some (mkCartItem "u2" "p1" 1).
Proof.
  destruct (place_effects 0 Sample.shop Sample.alice Sample.order_two_widgets 201
              "0"
              widget_order
              Sample.after_place)
    as (_ & _ & _ & _ & _ & _ & Hstock & Hcart & _).
  - vm_compute. reflexivity.
  - split_and!.
    + rewrite Hstock. vm_compute. reflexivity.
    + destruct (cart_items Sample.after_place !! "c1") as [line|] eqn:Hl; [|done].
      apply Hcart in Hl as [Hl Hne]. vm_compute in Hl.
      injection Hl as <-. by destruct Hne.
    + apply Hcart. split; [vm_compute; reflexivity|discriminate].
Defined.

(** ** Stock never below zero? *)

Lemma ordered_quantity_absent pid items :
  pid ∉ it_product_id <$> items → ordered_quantity pid items = 0.
Proof.
  induction items as [|item items IH]; simpl; [done|].
  intros Hn. apply not_elem_of_cons in Hn as [Hne Hn].
  case_decide; [congruence|]. by apply IH.
Qed.

Lemma ordered_quantity_distinct pid items :
  NoDup (it_product_id <$> items) →
  ordered_quantity pid items = 0
  ∨ ∃ item, item ∈ items ∧ it_product_id item = pid
            ∧ ordered_quantity pid items = it_quantity item.
Proof.
  induction items as [|item items IH]; simpl; [by left|].
  intros [Hn Hnd]%NoDup_cons. case_decide as Heq.
  - right. exists item. split_and!; [left|done|].
    subst pid. rewrite (ordered_quantity_absent _ _ Hn). lia.
  - destruct (IH Hnd) as [H0|(it & Hin & Hid & Hq)]; [by left|].
    right. exists it. split_and!; [by right|done|done].
Qed.

(** X6. A placement whose lines name pairwise distinct products never
    drives a stock below zero: if no product has negative stock before,
    none has after. *)
Theorem place_keeps_stock_nonneg now st user body :
  NoDup (it_product_id <$> default [] (pb_items body)) →
  stock_nonneg (products st) →
  stock_nonneg (products (place now st user body).2).
Proof.
  intros Hnd Hst. destruct (fails_validation st body) eqn:Hf.
  - destruct (place_rejected now st user body Hf) as [msg ->]. done.
  - destruct (place_accepted now st user body Hf) as (lines & Hall & ->). simpl.
    intros pid p'. rewrite decrement_stock_all.
    destruct (products st !! pid) as [p|] eqn:Hp; simpl; [|done].
    intros [= <-]. simpl. specialize (Hst pid p Hp). simpl in Hst.
    destruct (ordered_quantity_distinct pid _ Hnd) as [->|(item & Hin & Hid & ->)]; [lia|].
    apply list_elem_of_lookup in Hin as [i Hi].
    destruct (Forall2_lookup_l _ _ _ _ _ Hall Hi) as (line & _ & product & Hpr & Hle & _).
    rewrite Hid, Hp in Hpr. simplify_eq. lia.
Qed.

Lemma stock_nonneg_catalog : stock_nonneg Sample.catalog.
Proof. unfold stock_nonneg. apply (bool_decide_unpack _). vm_compute. exact I. Defined.

Lemma place_keeps_stock_nonneg_witness :
  stock_nonneg (products (place 0 Sample.shop Sample.alice Sample.order_five_widgets).2)
  ∧ stock_nonneg (products Sample.after_place).
Proof.
  split.
  - apply (place_keeps_stock_nonneg 0 Sample.shop Sample.alice Sample.order_five_widgets).
    + apply (bool_decide_unpack _). vm_compute. exact I.
    + exact stock_nonneg_catalog.
  - apply (place_keeps_stock_nonneg 0 Sample.shop Sample.alice Sample.order_two_widgets).
    + apply (bool_decide_unpack _). vm_compute. exact I.
    + exact stock_nonneg_catalog.
Defined.

(** X7. The stock check looks at one line at a time against the stock as
    it is before the request: a request naming the same product on two
    lines, each within the stock but together above it, is accepted and
    leaves that product with a negative stock; the other columns of the
    product are as before. *)
Theorem place_oversells_repeated_product now st user pid quantity product shipping_info :
  products st !! pid = Some product →
  quantity ≤ prod_stock product →
  prod_stock product < 2 * quantity →
  truthy (shipping_info !! "address") = true →
  truthy (shipping_info !! "city") = true →
  ∃ id order st' product',
    place now st user (twice pid quantity shipping_info) = (Ok 201 (id, order), st')
    ∧ products st' !! pid = Some product'
    ∧ prod_stock product' = prod_stock product - 2 * quantity
    ∧ prod_stock product' < 0
    ∧ prod_price product' = prod_price product
    ∧ prod_title product' = prod_title product
    ∧ prod_approved_by_ai product' = prod_approved_by_ai product.
Proof.
  intros Hp Hle Hlt Ha Hc.
  assert (Hf : fails_validation st (twice pid quantity shipping_info) = false).
  { unfold fails_validation, input_invalid, line_rejected. simpl.
    rewrite Ha, Hc, Hp. simpl. lia. }
  destruct (place_accepted now st user _ Hf) as (lines & _ & ->).
  eexists _, _, _, _. split; [done|]. simpl. split.
  - unfold decrement_stock. simpl. rewrite Hp. rewrite lookup_insert_eq.
    by rewrite insert_insert_eq, lookup_insert_eq.
  - simpl. split_and!; [lia|lia|done..].
Qed.

Lemma place_oversells_repeated_product_witness :
  ∃ id order st',
    place 0 Sample.shop Sample.alice (twice "p1" 2 Sample.short_address)
    = (Ok 201 (id, order), st')
    ∧ prod_stock <$> products Sample.shop !! "p1" = Some 3
    ∧ prod_stock <$> products st' !! "p1" = Some (-1).
Proof.
  destruct (place_oversells_repeated_product 0 Sample.shop Sample.alice "p1" 2
              Sample.widget Sample.short_address)
    as (id & order & st' & product' & Hp & Hl & Hs & _).
  - reflexivity.
  - simpl. lia.
  - simpl. lia.
  - reflexivity.
  - reflexivity.
  - exists id, order, st'. split; [exact Hp|]. split; [reflexivity|].
    rewrite Hl. simpl. f_equal. exact Hs.
Defined.



(** ** Refused cancellations *)

Lemma not_permitted_guard user order :
  ¬ may_cancel user order →
  negb (u_role user =? "admin")%string
  && negb (o_user_id order =? u_id user)%string = true.
Proof.
  intros Hn. apply andb_true_iff. split; apply negb_true_iff, String.eqb_neq;
    intros Heq; apply Hn; [by left|by right].
Qed.

(** X9. The cancellation handler answers, in this order: 404 when the
    order does not exist; 403 when the caller is neither an admin nor the
    owner, whatever the order's status; 400 when the order is shipped or
    delivered; and 500 in every remaining case, because its UPDATE names
    the column [cancellation_reason], which the [orders] table lacks.
    So no cancellation is ever accepted, and none changes the store. *)
Theorem cancel_refusals st user id reason :
  (cancel st user id reason).2 = st
  ∧ ((orders st !! id = None
      ∧ (cancel st user id reason).1 = Err 404 "Order not found")
     ∨ ∃ order,
         orders st !! id = Some order
         ∧ ((¬ may_cancel user order
             ∧ (cancel st user id reason).1 = Err 403 "Unauthorized")
            ∨ (may_cancel user order
               ∧ (o_status order = "shipped" ∨ o_status order = "delivered")
               ∧ (cancel st user id reason).1
                 = Err 400 "Cannot cancel shipped or delivered orders")
            ∨ (may_cancel user order
               ∧ o_status order ≠ "shipped"
               ∧ o_status order ≠ "delivered"
               ∧ (cancel st user id reason).1
                 = Err 500 (column_error "cancellation_reason")))).
Proof.
  destruct (orders st !! id) as [order|] eqn:Ho.
  - assert (Hdec : may_cancel user order ∨ ¬ may_cancel user order).
    { unfold may_cancel. destruct (decide (u_role user = "admin")); [by left; left|].
      destruct (decide (o_user_id order = u_id user)); [by left; right|].
      right. by intros [?|?]. }
    destruct Hdec as [Hmay|Hnot].
    + destruct (decide (o_status order = "shipped")) as [Hs|Hs].
      { rewrite (cancel_shipped_or_delivered _ _ _ _ _ Ho Hmay) by by left.
        split; [done|]. right. exists order. split; [done|].
        right. left. split_and!; [done|by left|done]. }
      destruct (decide (o_status order = "delivered")) as [Hd|Hd].
      { rewrite (cancel_shipped_or_delivered _ _ _ _ _ Ho Hmay) by by right.
        split; [done|]. right. exists order. split; [done|].
        right. left. split_and!; [done|by right|done]. }
      rewrite (cancel_past_guards _ _ _ _ _ Ho Hmay Hs Hd).
      split; [done|]. right. exists order. split; [done|].
      right. right. by split_and!.
    + unfold cancel. rewrite Ho, (not_permitted_guard _ _ Hnot).
      split; [done|]. right. exists order. split; [done|]. by left.
  - unfold cancel. rewrite Ho. split; [done|]. by left.
Qed.

(** ** The admin gate inside the handlers *)

(** X11. For a caller whose role is not [admin], the three admin
    handlers (status, payment status, product update) answer 403 before
    looking at anything else, and change nothing. *)
Theorem admin_handlers_refuse_others st user id status tracking_number
    payment_status updates :
  u_role user ≠ "admin" →
  update_status st user id status tracking_number
  = (Err 403 "Admin access required", st)
  ∧ update_payment_status st user id payment_status
    = (Err 403 "Admin access required", st)
  ∧ update_product st user id updates
    = (Err 403 "Admin access required", st).
Proof.
  intros Hr. apply String.eqb_neq in Hr.
  unfold update_status, update_payment_status, update_product, requireAdmin.
  by rewrite Hr.
Qed.

Lemma admin_handlers_refuse_others_witness :
  update_status Sample.after_place Sample.alice "0" (Some "delivered") None
  = (Err 403 "Admin access required", Sample.after_place).
Proof.
  destruct (admin_handlers_refuse_others Sample.after_place Sample.alice "0"
              (Some "delivered") None None
              (mkProductUpdates None None None None None))
    as (H & _ & _); [discriminate|exact H].
Defined.

(** ** Tracking number and payment status *)

(** X12. An accepted status update stores the tracking number of the
    request when it is a non-empty string and keeps the order's previous
    tracking number otherwise; the payment status, the payment method, the
    owner and the estimated delivery are never changed by it. *)
Theorem update_status_tracking st user id status tracking_number code id' order' st' :
  update_status st user id status tracking_number = (Ok code (id', order'), st') →
  ∃ order,
    orders st !! id = Some order
    ∧ id' = id
    ∧ orders st' !! id = Some order'
    ∧ o_tracking_number order'
      = (if truthy tracking_number then tracking_number else o_tracking_number order)
    ∧ o_payment_status order' = o_payment_status order
    ∧ o_payment_method order' = o_payment_method order
    ∧ o_user_id order' = o_user_id order
    ∧ o_estimated_delivery order' = o_estimated_delivery order.
Proof.
  unfold update_status.
  destruct (negb (requireAdmin _)); [done|].
  destruct (negb (includes _ _)); [done|].
  destruct (orders st !! id) as [order|] eqn:Ho; [|done].
  intros [= <- <- <- <-]. exists order. simpl.
  split_and!; try done; [apply lookup_insert_eq|].
  destruct tracking_number as [t|]; simpl; [|done].
  by destruct (t =? "")%string.
Qed.

Lemma update_status_tracking_witness :
  ∃ order',
    orders Sample.after_delivery !! "0" = Some order'
    ∧ o_tracking_number order' = Some "TRACK-1".
Proof.
  destruct (update_status_tracking Sample.after_place Sample.root "0"
              (Some "delivered") (Some "TRACK-1") 200 "0"
              (with_status "delivered" (Some "TRACK-1")
                 widget_order)
              Sample.after_delivery)
    as (order & _ & _ & Ho & Ht & _).
  - vm_compute. reflexivity.
  - eexists. split; [exact Ho|]. rewrite Ht. reflexivity.
Defined.

Lemma update_status_accepted st user id status tracking_number order :
  u_role user = "admin" →
  includes validStatuses status = true →
  orders st !! id = Some order →
  update_status st user id status tracking_number
  = (Ok 200 (id, with_status (default "" status)
                   (if truthy tracking_number then tracking_number else None) order),
     set_orders
       (<[id := with_status (default "" status)
                  (if truthy tracking_number then tracking_number else None) order]>
          (orders st)) st).
Proof.
  intros Hr Hs Ho. unfold update_status, requireAdmin. by rewrite Hr, Hs, Ho.
Qed.

Lemma update_payment_status_accepted st user id payment_status order :
  u_role user = "admin" →
  includes validPaymentStatuses payment_status = true →
  orders st !! id = Some order →
  update_payment_status st user id payment_status
  = (Ok 200 (id, with_payment_status (default "" payment_status) order),
     set_orders
       (<[id := with_payment_status (default "" payment_status) order]> (orders st)) st).
Proof.
  intros Hr Hs Ho. unfold update_payment_status, requireAdmin. by rewrite Hr, Hs, Ho.
Qed.

(** X13. Status and payment status are independent columns: on an
    existing order, an accepted status update followed by an accepted
    payment-status update ends in the same store as the two in the other
    order. *)
Theorem status_updates_commute st user id status tracking_number payment_status order :
  u_role user = "admin" →
  orders st !! id = Some order →
  includes validStatuses status = true →
  includes validPaymentStatuses payment_status = true →
  (update_payment_status
     (update_status st user id status tracking_number).2 user id payment_status).2
  = (update_status
       (update_payment_status st user id payment_status).2 user id status
       tracking_number).2.
Proof.
  intros Hr Ho Hs Hp.
  rewrite (update_status_accepted st user id status tracking_number order Hr Hs Ho).
  rewrite (update_payment_status_accepted st user id payment_status order Hr Hp Ho).
  simpl.
  erewrite update_payment_status_accepted; [|done|done|apply lookup_insert_eq].
  erewrite update_status_accepted; [|done|done|apply lookup_insert_eq].
  simpl. unfold set_orders. simpl. by rewrite !insert_insert_eq.
Qed.

Lemma status_updates_commute_witness :
  (update_payment_status
     (update_status Sample.after_place Sample.root "0" (Some "shipped") None).2
     Sample.root "0" (Some "paid")).2
  = (update_status
       (update_payment_status Sample.after_place Sample.root "0" (Some "paid")).2
       Sample.root "0" (Some "shipped") None).2.
Proof.
  apply (status_updates_commute Sample.after_place Sample.root "0" (Some "shipped")
           None (Some "paid")
           widget_order).
  - reflexivity.
  - vm_compute. reflexivity.
  - vm_compute. reflexivity.
  - vm_compute. reflexivity.
Defined.

(** ** The status columns along a run *)

Lemma statuses_valid_insert os id order :
  statuses_valid os →
  o_status order ∈ validStatuses →
  o_payment_status order ∈ validPaymentStatuses →
  statuses_valid (<[id := order]> os).
Proof. intros Hv Hs Hp. by apply map_Forall_insert_2. Qed.

Lemma includes_elem l s : includes l s = true → default "" s ∈ l.
Proof.
  destruct s as [v|]; simpl; [|done]. intros H. by apply bool_decide_eq_true in H.
Qed.

Lemma step_keeps_statuses_valid st st' :
  step st st' → statuses_valid (orders st) → statuses_valid (orders st').
Proof.
  destruct 1 as [now st user body|st user id reason|st user id status tn
                 |st user id payment_status|st user id updates|st user body
                 |st user id quantity|st user id|st user]; intros Hv.
  - destruct (fails_validation st body) eqn:Hf.
    + by destruct (place_rejected now st user body Hf) as [msg ->].
    + destruct (place_accepted now st user body Hf) as (lines & _ & ->). simpl.
      apply statuses_valid_insert; [done|simpl..].
      * unfold validStatuses. set_solver.
      * unfold validPaymentStatuses. set_solver.
  - unfold cancel. destruct (orders st !! id) as [order|] eqn:Ho; [|done].
    destruct (_ && _); [done|]. destruct (_ || _); [done|].
    destruct (unknown_column _ _); [done|]. simpl.
    apply statuses_valid_insert; [done|simpl..].
    + unfold validStatuses. set_solver.
    + by apply (Hv id order Ho).
  - unfold update_status.
    destruct (negb (requireAdmin _)); [done|].
    destruct (includes validStatuses status) eqn:Hs; [|done]. simpl.
    destruct (orders st !! id) as [order|] eqn:Ho; [|done]. simpl.
    apply statuses_valid_insert; [done|simpl..].
    + by apply includes_elem.
    + by apply (Hv id order Ho).
  - unfold update_payment_status.
    destruct (negb (requireAdmin _)); [done|].
    destruct (includes validPaymentStatuses payment_status) eqn:Hs; [|done]. simpl.
    destruct (orders st !! id) as [order|] eqn:Ho; [|done]. simpl.
    apply statuses_valid_insert; [done|simpl..].
    + by apply (Hv id order Ho).
    + by apply includes_elem.
  - by rewrite update_product_orders.
  - by rewrite cart_add_orders.
  - by rewrite cart_update_orders.
  - done.
  - done.
Qed.

(** X14. The handlers only ever store a status among pending,
    processing, shipped, delivered, cancelled and a payment status among
    pending, paid, failed, refunded: if all orders satisfy this, they
    still do after any run of the order, cart and product-update
    handlers. *)
Theorem run_keeps_statuses_valid st st' :
  rtc step st st' → statuses_valid (orders st) → statuses_valid (orders st').
Proof.
  induction 1 as [st|st st1 st2 Hs _ IH]; [done|].
  intros Hv. apply IH. by eapply step_keeps_statuses_valid.
Qed.

Lemma run_keeps_statuses_valid_witness :
  statuses_valid (orders Sample.after_admin_cancel).
Proof.
  apply (run_keeps_statuses_valid Sample.shop Sample.after_admin_cancel).
  - exact reach_after_admin_cancel.
  - intros id order Ho. vm_compute in Ho. discriminate.
Defined.

(** ** Cart update *)

(** X15. PUT /api/cart/:id with a quantity of at least one: 404 when
    the line does not exist or belongs to another user; 400 when the
    quantity exceeds the current stock of the line's product; otherwise
    the line's quantity is replaced (not incremented) by the requested
    one, the line is returned, it is read back from the cart under the
    same id afterwards, and nothing else in the store differs.  A missing
    quantity or one below one is refused with 400 before anything is
    read.  A refusal leaves the store as it was. *)
Theorem cart_update_contract st user id quantity :
  1 ≤ quantity →
  ((cart_items st !! id = None
    ∨ ∃ line, cart_items st !! id = Some line ∧ ci_user_id line ≠ u_id user) →
   cart_update st user id (Some quantity) = (Err 404 "Cart item not found", st))
  ∧ (∀ line product,
       cart_items st !! id = Some line →
       ci_user_id line = u_id user →
       products st !! ci_product_id line = Some product →
       (prod_stock product < quantity →
        cart_update st user id (Some quantity)
        = (Err 400 "Not enough stock available", st))
       ∧ (quantity ≤ prod_stock product →
          ∃ st',
            cart_update st user id (Some quantity)
            = (Ok 200 (id, mkCartItem (u_id user) (ci_product_id line) quantity), st')
            ∧ line_written st st' id
                (mkCartItem (u_id user) (ci_product_id line) quantity)))
  ∧ cart_update st user id None = (Err 400 "Valid quantity is required", st)
  ∧ ∀ low, low ≤ 0 →
      cart_update st user id (Some low) = (Err 400 "Valid quantity is required", st).
Proof.
  intros Hq. split_and!.
  - unfold cart_update. destruct (quantity <=? 0) eqn:E; [lia|].
    intros [->|(line & -> & Hne)]; [done|].
    apply String.eqb_neq in Hne. by rewrite Hne.
  - intros line product Hl Hu Hp. unfold cart_update.
    destruct (quantity <=? 0) eqn:E; [lia|]. rewrite Hl.
    pose proof Hu as Hu'. apply String.eqb_eq in Hu'. rewrite Hu', Hp. simpl.
    split; intros H.
    + destruct (prod_stock product <? quantity) eqn:E2; [done|lia].
    + destruct (prod_stock product <? quantity) eqn:E2; [lia|].
      unfold with_quantity. rewrite Hu.
      eexists. split; [reflexivity|].
      unfold line_written. simpl. split_and!; try done.
      * apply lookup_insert_eq.
      * intros other Hne. by apply lookup_insert_ne.
  - done.
  - intros low Hlow. unfold cart_update.
    destruct (low <=? 0) eqn:E; [done|lia].
Qed.

Lemma cart_update_contract_witness :
  cart_items Sample.shop !! "c1" = Some (mkCartItem "u1" "p2" 4)
  ∧ (∃ st',
       cart_update Sample.shop Sample.alice "c1" (Some 9)
       = (Ok 200 ("c1", mkCartItem "u1" "p2" 9), st')
       ∧ cart_items st' !! "c1" = Some (mkCartItem "u1" "p2" 9)
       ∧ cart_items st' !! "c2" = cart_items Sample.shop !! "c2")
  ∧ cart_update Sample.shop Sample.alice "c2" (Some 1)
    = (Err 404 "Cart item not found", Sample.shop).
Proof.
  split; [reflexivity|]. split.
  - destruct (cart_update_contract Sample.shop Sample.alice "c1" 9) as (_ & H & _); [lia|].
    destruct (H (mkCartItem "u1" "p2" 4) Sample.gadget eq_refl eq_refl eq_refl)
      as [_ Hok].
    destruct Hok as (st' & Hupd & Hread & Hothers & _); [simpl; lia|].
    exists st'. split; [exact Hupd|]. split; [exact Hread|].
    apply Hothers. discriminate.
  - destruct (cart_update_contract Sample.shop Sample.alice "c2" 1) as (H & _); [lia|].
    apply H. right. exists (mkCartItem "u2" "p1" 1). split; [reflexivity|discriminate].
Defined.

(** ** Adding the same product twice *)

Lemma cart_add_new_line st user pid quantity product :
  pid ≠ "" →
  1 ≤ quantity →
  products st !! pid = Some product →
  prod_approved_by_ai product = true →
  quantity ≤ prod_stock product →
  cart_lines_of (u_id user) pid (cart_items st) = [] →
  cart_add st user (mkCartAddBody (Some pid) (Some quantity))
  = (Ok 201 (fresh (dom (cart_items st)), mkCartItem (u_id user) pid quantity),
     set_cart_items
       (<[fresh (dom (cart_items st)) := mkCartItem (u_id user) pid quantity]>
          (cart_items st)) st).
Proof.
  intros Hpid Hq Hp Ha Hle Hnil.
  rewrite (cart_add_approved _ _ _ _ _ Hpid Hq Hp Ha), Hnil. simpl.
  destruct (prod_stock product <? quantity) eqn:E; [lia|done].
Qed.

(** X16. Adding a product the caller has no line for, and then adding it
    again, leaves one line for it, under the id the first call returned,
    holding the sum of the two quantities, provided the sum is within the
    stock; if only the first quantity is within the stock the second call
    is refused with 400 and the line keeps the first quantity. *)
Theorem cart_add_twice st user pid q1 q2 product :
  pid ≠ "" →
  1 ≤ q1 →
  1 ≤ q2 →
  cart_wf (cart_items st) →
  products st !! pid = Some product →
  prod_approved_by_ai product = true →
  q1 ≤ prod_stock product →
  (∀ id line, cart_items st !! id = Some line →
              ¬ (ci_user_id line = u_id user ∧ ci_product_id line = pid)) →
  ∃ id st1,
    cart_add st user (mkCartAddBody (Some pid) (Some q1))
    = (Ok 201 (id, mkCartItem (u_id user) pid q1), st1)
    ∧ cart_items st !! id = None
    ∧ (q1 + q2 ≤ prod_stock product →
       cart_add st1 user (mkCartAddBody (Some pid) (Some q2))
       = (Ok 200 (id, mkCartItem (u_id user) pid (q1 + q2)),
          set_cart_items
            (<[id := mkCartItem (u_id user) pid (q1 + q2)]> (cart_items st)) st))
    ∧ (prod_stock product < q1 + q2 →
       ∃ msg, insufficient_stock_message msg
              ∧ cart_add st1 user (mkCartAddBody (Some pid) (Some q2))
                = (Err 400 msg, st1)).
Proof.
  intros Hpid Hq1 Hq2 [Hu Hpos] Hp Ha Hle Hno.
  pose proof (cart_lines_of_none _ _ _ Hno) as Hnil.
  assert (Hfresh : cart_items st !! fresh (dom (cart_items st)) = None)
    by apply not_elem_of_dom, is_fresh.
  eexists _, _. split; [by apply (cart_add_new_line st user pid q1 product)|].
  split; [done|].
  assert (Hone : cart_lines_of (u_id user) pid
                   (<[fresh (dom (cart_items st)) := mkCartItem (u_id user) pid q1]>
                      (cart_items st))
                 = [(fresh (dom (cart_items st)), mkCartItem (u_id user) pid q1)]).
  { apply cart_lines_of_one; [by apply cart_unique_insert|apply lookup_insert_eq|done..]. }
  split.
  - intros Hsum.
    rewrite (cart_add_approved (set_cart_items _ st) user pid q2 product
               Hpid Hq2 Hp Ha).
    simpl. rewrite Hone. simpl.
    destruct (prod_stock product <? q2) eqn:E1; [lia|].
    destruct (prod_stock product <? q1 + q2) eqn:E2; [lia|].
    unfold set_cart_items, with_quantity. simpl. by rewrite insert_insert_eq.
  - intros Hsum.
    rewrite (cart_add_approved (set_cart_items _ st) user pid q2 product
               Hpid Hq2 Hp Ha).
    simpl. rewrite Hone. simpl.
    destruct (prod_stock product <? q2) eqn:E1.
    + eexists. split; [by left|done].
    + destruct (prod_stock product <? q1 + q2) eqn:E2; [|lia].
      eexists. split; [by right|done].
Qed.

Lemma cart_add_twice_witness :
  ∃ id st1,
    cart_add Sample.shop Sample.alice (mkCartAddBody (Some "p1") (Some 1))
    = (Ok 201 (id, mkCartItem "u1" "p1" 1), st1)
    ∧ cart_add st1 Sample.alice (mkCartAddBody (Some "p1") (Some 2))
      = (Ok 200 (id, mkCartItem "u1" "p1" 3),
         set_cart_items (<[id := mkCartItem "u1" "p1" 3]> Sample.basket) Sample.shop).
Proof.
  destruct (cart_add_twice Sample.shop Sample.alice "p1" 1 2 Sample.widget)
    as (id & st1 & H1 & _ & H2 & _).
  - discriminate.
  - lia.
  - lia.
  - exact cart_wf_basket.
  - reflexivity.
  - reflexivity.
  - simpl. lia.
  - intros id line Hl [Hu Hp].
    assert (Hin : (id, line) ∈ cart_lines_of "u1" "p1" Sample.basket)
      by (by apply elem_of_cart_lines_of).
    vm_compute in Hin. by apply elem_of_nil in Hin.
  - exists id, st1. split; [exact H1|]. apply H2. simpl. lia.
Defined.

(** ** Adding and removing *)

(** X17. Removing the line that an add has just created undoes the add:
    the store is again the one before the add. *)
Theorem cart_add_then_remove st user body id line st1 :
  cart_add st user body = (Ok 201 (id, line), st1) →
  (cart_remove st1 user id).2 = st.
Proof.
  unfold cart_add.
  destruct (negb (truthy (cab_product_id body))); [done|].
  destruct (default 1 (cab_quantity body) <=? 0); [done|].
  destruct (products st !! _) as [product|]; [|done].
  destruct (negb (prod_approved_by_ai product)); [done|].
  destruct (prod_stock product <? _); [done|].
  destruct (single _) as [[id0 line0]|].
  { destruct (prod_stock product <? _); done. }
  destruct (cart_lines_of _ _ _); [|done].
  intros [= <- <- <-]. rewrite cart_remove_store. simpl.
  rewrite filter_not_removable, lookup_insert_eq. simpl.
  rewrite decide_True by done.
  rewrite delete_insert_eq, delete_id by apply not_elem_of_dom, is_fresh.
  by destruct st.
Qed.

Lemma cart_add_then_remove_witness :
  (cart_remove
     (cart_add Sample.shop Sample.alice (mkCartAddBody (Some "p1") (Some 1))).2
     Sample.alice "0").2
  = Sample.shop.
Proof.
  apply (cart_add_then_remove Sample.shop Sample.alice
           (mkCartAddBody (Some "p1") (Some 1)) "0" (mkCartItem "u1" "p1" 1)).
  vm_compute. reflexivity.
Defined.

(** ** Carts of other users *)

Lemma others_untouched_refl uid cs : others_untouched uid cs cs.
Proof. by intros id line _. Qed.

Lemma others_untouched_rewrite uid cs id old new :
  cs !! id = Some old →
  ci_user_id old = uid →
  ci_user_id new = uid →
  others_untouched uid cs (<[id := new]> cs).
Proof.
  intros Ho Hold Hnew j line Hne. destruct (decide (id = j)) as [->|Hj].
  - rewrite lookup_insert_eq, Ho. split; intros [= <-]; congruence.
  - by rewrite lookup_insert_ne.
Qed.

Lemma others_untouched_new uid cs id new :
  cs !! id = None →
  ci_user_id new = uid →
  others_untouched uid cs (<[id := new]> cs).
Proof.
  intros Hn Hnew j line Hne. destruct (decide (id = j)) as [->|Hj].
  - rewrite lookup_insert_eq, Hn. split; [|done]. intros [= <-]. congruence.
  - by rewrite lookup_insert_ne.
Qed.

(** X18. The four writing cart routes act on the caller's lines only: a
    line of another user is there afterwards exactly if it was there
    before, unchanged, whatever the request; and none of them touches
    products or orders. *)
Theorem cart_routes_isolated st user :
  (∀ body,
     others_untouched (u_id user) (cart_items st)
       (cart_items (cart_add st user body).2)
     ∧ products (cart_add st user body).2 = products st
     ∧ orders (cart_add st user body).2 = orders st)
  ∧ (∀ id quantity,
       others_untouched (u_id user) (cart_items st)
         (cart_items (cart_update st user id quantity).2)
       ∧ products (cart_update st user id quantity).2 = products st
       ∧ orders (cart_update st user id quantity).2 = orders st)
  ∧ (∀ id,
       others_untouched (u_id user) (cart_items st)
         (cart_items (cart_remove st user id).2)
       ∧ products (cart_remove st user id).2 = products st
       ∧ orders (cart_remove st user id).2 = orders st)
  ∧ others_untouched (u_id user) (cart_items st)
      (cart_items (cart_clear st user).2)
    ∧ products (cart_clear st user).2 = products st
    ∧ orders (cart_clear st user).2 = orders st.
Proof.
  split_and!.
  - intros body. unfold cart_add.
    destruct (negb (truthy (cab_product_id body)));
      [by split; [apply others_untouched_refl|]|].
    destruct (default 1 (cab_quantity body) <=? 0);
      [by split; [apply others_untouched_refl|]|].
    destruct (products st !! _) as [product|];
      [|by split; [apply others_untouched_refl|]].
    destruct (negb (prod_approved_by_ai product));
      [by split; [apply others_untouched_refl|]|].
    destruct (prod_stock product <? _);
      [by split; [apply others_untouched_refl|]|].
    destruct (single _) as [[id0 line0]|] eqn:Hs.
    + destruct (prod_stock product <? _);
        [by split; [apply others_untouched_refl|]|].
      simpl. split; [|done].
      apply single_Some in Hs.
      assert ((id0, line0) ∈ cart_lines_of (u_id user)
                (default "" (cab_product_id body)) (cart_items st)) as Hin
        by (rewrite Hs; left).
      apply elem_of_cart_lines_of in Hin as (Hl & Hu & _).
      by eapply others_untouched_rewrite.
    + destruct (cart_lines_of _ _ _);
        [|by split; [apply others_untouched_refl|]].
      simpl. split; [|done].
      apply others_untouched_new; [|done]. apply not_elem_of_dom, is_fresh.
  - intros id quantity. unfold cart_update.
    destruct quantity as [quantity|]; [|by split; [apply others_untouched_refl|]].
    destruct (quantity <=? 0); [by split; [apply others_untouched_refl|]|].
    destruct (cart_items st !! id) as [cartItem|] eqn:Hl;
      [|by split; [apply others_untouched_refl|]].
    destruct (ci_user_id cartItem =? u_id user)%string eqn:Hu; simpl;
      [|by split; [apply others_untouched_refl|]].
    destruct (products st !! _) as [product|];
      [|by split; [apply others_untouched_refl|]].
    destruct (prod_stock product <? quantity);
      [by split; [apply others_untouched_refl|]|].
    simpl. split; [|done]. apply String.eqb_eq in Hu.
    by eapply others_untouched_rewrite.
  - intros id. simpl. split; [|done].
    intros j line Hne. rewrite map_lookup_filter_Some. simpl.
    split; [tauto|]. intros Hj. split; [done|]. intros [_ Hu]. done.
  - simpl. intros j line Hne. unfold clear_cart.
    rewrite map_lookup_filter_Some. simpl. tauto.
  - done.
  - done.
Qed.

(** ** Clearing the cart *)

Lemma clear_cart_twice uid cs :
  clear_cart uid (clear_cart uid cs) = clear_cart uid cs.
Proof.
  unfold clear_cart. apply map_eq. intros j. apply option_eq. intros y.
  rewrite !map_lookup_filter_Some. simpl. tauto.
Qed.

(** X19. DELETE /api/cart keeps exactly the lines of the other users,
    clearing an already cleared cart changes nothing, and the cart it
    leaves is the cart a successful placement by the same user leaves. *)
Theorem cart_clear_spec st user :
  (cart_clear st user).1 = Ok 200 "Cart cleared successfully"
  ∧ (∀ id line,
       cart_items (cart_clear st user).2 !! id = Some line
       ↔ cart_items st !! id = Some line ∧ ci_user_id line ≠ u_id user)
  ∧ cart_clear (cart_clear st user).2 user = cart_clear st user
  ∧ ∀ now body code res st',
      place now st user body = (Ok code res, st') →
      cart_items st' = cart_items (cart_clear st user).2.
Proof.
  split_and!.
  - done.
  - intros id line. simpl. unfold clear_cart.
    rewrite map_lookup_filter_Some. simpl. tauto.
  - unfold cart_clear, set_cart_items. simpl. by rewrite clear_cart_twice.
  - intros now body code [id order] st' (lines & _ & _ & _ & _ & ->)%place_ok_shape.
    done.
Qed.

(** ** Order tracking *)

(** X20. The tracking history is a function of the order's current
    status only: one milestone for [pending], [cancelled] or any other
    value, two for [processing], three for [shipped], four for
    [delivered]; each history is an initial part of the [delivered] one,
    it always starts with the placement at the creation time, and its
    dates strictly increase. *)
Theorem tracking_history_shape createdAt status :
  length (tracking_history createdAt status) = milestones status
  ∧ tracking_history createdAt status `prefix_of` tracking_history createdAt "delivered"
  ∧ head (tracking_history createdAt status)
    = Some (mkMilestone "Order Placed" createdAt
                        "Your order has been placed successfully")
  ∧ StronglySorted Z.lt (ms_date <$> tracking_history createdAt status).
Proof.
  unfold tracking_history, milestones, one_day.
  destruct (String.eqb_spec status "delivered") as [->|Hd].
  { simpl. split_and!; [done|done|done|].
    repeat (constructor; [|repeat (constructor; [lia|]); constructor]).
    constructor. }
  destruct (String.eqb_spec status "shipped") as [->|Hs].
  { simpl. split_and!; [done|by eexists|done|].
    repeat (constructor; [|repeat (constructor; [lia|]); constructor]).
    constructor. }
  destruct (String.eqb_spec status "processing") as [->|Hp].
  { simpl. split_and!; [done|by eexists|done|].
    repeat (constructor; [|repeat (constructor; [lia|]); constructor]).
    constructor. }
  simpl. split_and!; [done|by eexists|done|].
  repeat constructor.
Qed.

Lemma orders_tracked_elem tn os id order :
  (id, order) ∈ orders_tracked tn os
  ↔ os !! id = Some order ∧ o_tracking_number order = Some tn.
Proof.
  unfold orders_tracked. rewrite elem_of_map_to_list, map_lookup_filter_Some.
  simpl. tauto.
Qed.

(** X21. Looking an order up by tracking number answers 404 when no
    order carries the number and also when two different orders carry
    it; when exactly one order carries it, the answer is that order's id,
    current status, estimated delivery and the history for its current
    status. *)
Theorem track_lookup created_at st tracking_number :
  ((∀ id order, orders st !! id = Some order →
                o_tracking_number order ≠ Some tracking_number) →
   track created_at st tracking_number = Err 404 "Order not found")
  ∧ (∀ id order,
       orders st !! id = Some order →
       o_tracking_number order = Some tracking_number →
       (∀ j other, orders st !! j = Some other →
                   o_tracking_number other = Some tracking_number → j = id) →
       track created_at st tracking_number
       = Ok 200 (mkTracking id (Some tracking_number) (o_status order)
                            (o_estimated_delivery order)
                            (tracking_history (created_at id) (o_status order))))
  ∧ (∀ i j a b,
       i ≠ j →
       orders st !! i = Some a → o_tracking_number a = Some tracking_number →
       orders st !! j = Some b → o_tracking_number b = Some tracking_number →
       track created_at st tracking_number = Err 404 "Order not found").
Proof.
  unfold track. split_and!.
  - intros Hno.
    assert (orders_tracked tracking_number (orders st) = []) as ->; [|done].
    apply map_to_list_empty_iff, map_empty_filter_2.
    intros id order Ho. simpl. exact (Hno id order Ho).
  - intros id order Ho Ht Honly.
    assert (orders_tracked tracking_number (orders st) = [(id, order)]) as ->.
    { apply NoDup_only.
      - apply NoDup_map_to_list.
      - by apply orders_tracked_elem.
      - intros [j other] [Hj Hjt]%orders_tracked_elem.
        assert (j = id) as -> by by eapply Honly. congruence. }
    simpl. by rewrite Ht.
  - intros i j a b Hne Hi Hit Hj Hjt.
    destruct (single _) as [[k c]|] eqn:Hs; [|done].
    apply single_Some in Hs.
    assert ((i, a) ∈ orders_tracked tracking_number (orders st)) as Hia
      by (by apply orders_tracked_elem).
    assert ((j, b) ∈ orders_tracked tracking_number (orders st)) as Hjb
      by (by apply orders_tracked_elem).
    rewrite Hs in Hia, Hjb.
    apply list_elem_of_singleton in Hia, Hjb. congruence.
Qed.

Lemma track_lookup_witness :
  track (λ _, 1000) Sample.after_delivery "TRACK-1"
  = Ok 200 (mkTracking "0" (Some "TRACK-1") "delivered" seven_days
                       (tracking_history 1000 "delivered"))
  ∧ track (λ _, 1000) Sample.after_delivery "TRACK-9" = Err 404 "Order not found".
Proof.
  destruct (track_lookup (λ _, 1000) Sample.after_delivery "TRACK-1") as (_ & H & _).
  destruct (track_lookup (λ _, 1000) Sample.after_delivery "TRACK-9") as (H9 & _).
  assert (Hin : ∀ j other, orders Sample.after_delivery !! j = Some other →
                j = "0"
                ∧ other = with_status "delivered" (Some "TRACK-1")
                            widget_order).
  { intros j other Hj. apply elem_of_map_to_list in Hj.
    vm_compute in Hj. apply list_elem_of_singleton in Hj. by injection Hj as -> ->. }
  split.
  - apply (H "0" (with_status "delivered" (Some "TRACK-1")
                    widget_order)).
    + vm_compute. reflexivity.
    + reflexivity.
    + intros j other Hj _. by destruct (Hin j other Hj).
  - apply H9. intros id order Ho. destruct (Hin id order Ho) as [_ ->]. discriminate.
Defined.

(** ** Reading an order back *)

(** X22. The order a placement returns can be read back by the user
    who placed it, as stored; any other user, an admin included, gets 404
    for it from GET /api/orders/:id. *)
Theorem place_then_get_order now st user body code id order st' :
  place now st user body = (Ok code (id, order), st') →
  get_order st' user id = Ok 200 (id, order)
  ∧ ∀ other, u_id other ≠ u_id user →
             get_order st' other id = Err 404 "Order not found".
Proof.
  intros (lines & _ & -> & -> & -> & ->)%place_ok_shape.
  unfold get_order. simpl. rewrite lookup_insert_eq. simpl. split.
  - by rewrite String.eqb_refl.
  - intros other Hne.
    destruct (String.eqb_spec (u_id user) (u_id other)) as [Heq|_]; [|done].
    by destruct Hne.
Qed.

Lemma place_then_get_order_witness :
  get_order Sample.after_place Sample.root "0" = Err 404 "Order not found".
Proof.
  destruct (place_then_get_order 0 Sample.shop Sample.alice Sample.order_two_widgets
              201 "0"
              widget_order
              Sample.after_place)
    as [_ H].
  - vm_compute. reflexivity.
  - apply H. discriminate.
Defined.

(** ** Cart totals and order totals *)






(** ** The cart invariant along a run *)

(** X24. The cart table keeps its shape along every run of the order,
    cart and product-update handlers: at most one line per user and
    product, and every quantity at least one, if this was so at the
    start. *)
Theorem cart_wf_along_runs st st' :
  rtc step st st' → cart_wf (cart_items st) → cart_wf (cart_items st').
Proof.
  induction 1 as [st|st st1 st2 Hs _ IH]; [done|].
  intros Hwf. apply IH. by eapply step_keeps_cart_wf.
Qed.

Lemma cart_wf_along_runs_witness : cart_wf (cart_items Sample.after_delivery).
Proof.
  apply (cart_wf_along_runs Sample.shop Sample.after_delivery).
  - exact reach_after_delivery.
  - exact cart_wf_basket.
Defined.
